(** * Line classification engine of CodeAnalyzer.tsx

    A shallow embedding of [src/components/CodeAnalyzer.tsx]: the language
    resolver [getLanguageFromExtension], the comment grammar table
    [getCommentPatterns], the line classifier [analyzeFileContent] and the
    aggregation loop of [useCodeAnalyzer]; then of what surrounds them: the
    tables and charts computed by [AnalysisResults], and the selection of
    the files by [FileUpload] ([processFiles], [removeFile], the [accept]
    list).

    Modelling conventions.
    - A JavaScript string is a sequence of UTF-16 code units; the development
      works with the code units below 256 (Latin-1 text), so a string is a
      [string] of the standard library and a code unit an [ascii].
    - The counters are JavaScript numbers holding non-negative integers far
      below 2^53 (they count lines of strings held in memory), hence [nat].
    - [undefined] is [None]; the truthiness of a string is non-emptiness.
    - An object literal inherits from [Object.prototype]: a property read
      that misses the own properties finds the built-in members there. *)

From Stdlib Require Import Strings.String Strings.Ascii Arith.PeanoNat Lia.
From Stdlib Require Import Sorting.Sorted Numbers.DecimalString.
From stdpp Require Import base list strings.

Open Scope string_scope.

(** ** JavaScript string primitives used by the analyzer *)

Module JS.

(** [s.split(c)] for a one-code-unit separator [c]: the pieces between the
    occurrences of [c]; there is always at least one piece. *)
Fixpoint split (c : ascii) (s : string) : list string :=
  match s with
  | EmptyString => [EmptyString]
  | String a s' =>
      if Ascii.eqb a c then EmptyString :: split c s'
      else match split c s' with
           | [] => [String a EmptyString]
           | piece :: pieces => String a piece :: pieces
           end
  end.

(** [arr.pop()]: the last element, [undefined] on an empty array. *)
Definition pop {A} (arr : list A) : option A := last arr.

(** WhiteSpace and LineTerminator code units below 256: TAB, LF, VT, FF, CR,
    SP and NBSP. *)
Definition isWhiteSpace (a : ascii) : bool :=
  let n := nat_of_ascii a in
  (((9 <=? n) && (n <=? 13)) || (n =? 32) || (n =? 160))%nat.

Fixpoint trimStart (s : string) : string :=
  match s with
  | EmptyString => EmptyString
  | String a s' => if isWhiteSpace a then trimStart s' else s
  end.

Fixpoint trimEnd (s : string) : string :=
  match s with
  | EmptyString => EmptyString
  | String a s' =>
      match trimEnd s' with
      | EmptyString => if isWhiteSpace a then EmptyString else String a EmptyString
      | t => String a t
      end
  end.

(** [s.trim()] *)
Definition trim (s : string) : string := trimEnd (trimStart s).

(** [s.startsWith(p)] *)
Definition startsWith (s p : string) : bool := String.prefix p s.

(** [s.includes(sub)]: [sub] occurs in [s] at some position. *)
Fixpoint includes (s sub : string) : bool :=
  if String.prefix sub s then true
  else match s with
       | EmptyString => false
       | String _ s' => includes s' sub
       end.

(** Lower-casing of one code unit below 256: A-Z, and the Latin-1 capitals
    U+00C0-U+00DE except the multiplication sign U+00D7. *)
Definition lowerCaseUnit (a : ascii) : ascii :=
  let n := nat_of_ascii a in
  if (((65 <=? n) && (n <=? 90))
      || ((192 <=? n) && (n <=? 222) && negb (n =? 215)))%nat
  then ascii_of_nat (n + 32) else a.

(** [s.toLowerCase()] *)
Fixpoint toLowerCase (s : string) : string :=
  match s with
  | EmptyString => EmptyString
  | String a s' => String (lowerCaseUnit a) (toLowerCase s')
  end.

(** Truthiness of a possibly undefined string. *)
Definition truthy (o : option string) : bool :=
  match o with
  | Some s => negb (String.eqb s EmptyString)
  | None => false
  end.

(** The names of the members of [Object.prototype]; every one of them holds
    an object (a built-in function, or the prototype itself behind the
    [__proto__] accessor), hence a truthy value. *)
Definition objectPrototypeKeys : list string :=
  [ "constructor"; "__proto__"; "hasOwnProperty"; "isPrototypeOf";
    "propertyIsEnumerable"; "toString"; "toLocaleString"; "valueOf";
    "__defineGetter__"; "__defineSetter__"; "__lookupGetter__";
    "__lookupSetter__" ].

Definition inherited (key : string) : bool :=
  bool_decide (key ∈ objectPrototypeKeys).

(** The values a variable typed [string] holds at run time in this program:
    a string, or the built-in object read from [Object.prototype] under the
    given member name. *)
Inductive value : Type :=
  | VString (s : string)
  | VBuiltin (member : string).

(** [ToPropertyKey]: the string under which a value indexes an object. A
    built-in function prints as its native source text, the prototype object
    as [[object Object]]; the strings are those of V8. *)
Definition toPropertyKey (v : value) : string :=
  match v with
  | VString s => s
  | VBuiltin member =>
      if String.eqb member "__proto__" then "[object Object]"
      else "function " ++
           (if String.eqb member "constructor" then "Object" else member) ++
           "() { [native code] }"
  end.

(** Own-property lookup in an object written as a literal or filled by
    assignment, own properties in creation order. *)
Fixpoint getOwn {V} (obj : list (string * V)) (key : string) : option V :=
  match obj with
  | [] => None
  | (k, v) :: obj' => if String.eqb k key then Some v else getOwn obj' key
  end.

End JS.

Import JS.

(** ** Data model *)

(** One element of [AnalysisResult.files], the result of
    [analyzeFileContent]. *)
Record FileStats : Type := mkFileStats {
  name : string;
  language : value;
  lines : nat;
  blank : nat;
  comment : nat;
  code : nat;
}.

(** [LanguageStats]; the fields carry a prefix since [blank], [comment] and
    [code] name the fields of a per-file entry. *)
Record LanguageStats : Type := mkLanguageStats {
  ls_files : nat;
  ls_blank : nat;
  ls_comment : nat;
  ls_code : nat;
  ls_total : nat;
}.

(** The value type of the [patterns] table. *)
Record CommentPatterns : Type := mkPatterns {
  single : option string;
  blockStart : option string;
  blockEnd : option string;
}.

(** ** Language resolver *)

Definition languageMap : list (string * string) :=
  [ ("js", "JavaScript");
    ("jsx", "JavaScript React");
    ("ts", "TypeScript");
    ("tsx", "TypeScript React");
    ("py", "Python");
    ("java", "Java");
    ("cpp", "C++");
    ("cc", "C++");
    ("cxx", "C++");
    ("c", "C");
    ("h", "C Header");
    ("hpp", "C++ Header");
    ("cs", "C#");
    ("php", "PHP");
    ("rb", "Ruby");
    ("go", "Go");
    ("rs", "Rust");
    ("swift", "Swift");
    ("kt", "Kotlin");
    ("dart", "Dart");
    ("vue", "Vue");
    ("html", "HTML");
    ("htm", "HTML");
    ("css", "CSS");
    ("scss", "SCSS");
    ("sass", "Sass");
    ("less", "Less");
    ("xml", "XML");
    ("json", "JSON");
    ("md", "Markdown");
    ("txt", "Text");
    ("sql", "SQL");
    ("sh", "Shell");
    ("bat", "Batch");
    ("ps1", "PowerShell");
    ("yaml", "YAML");
    ("yml", "YAML") ].

(** [filename.split('.').pop()?.toLowerCase() || ''] *)
Definition extensionOf (filename : string) : string :=
  match pop (split "." filename) with
  | Some piece => toLowerCase piece
  | None => EmptyString
  end.

(** [languageMap[ext] || 'Unknown']: every own value is a non-empty string,
    every inherited value an object, so [||] keeps whatever the read finds. *)
Definition getLanguageFromExtension (filename : string) : value :=
  let ext := extensionOf filename in
  match getOwn languageMap ext with
  | Some label => VString label
  | None => if inherited ext then VBuiltin ext else VString "Unknown"
  end.

(** ** Comment grammar table *)

(** The Python block marker, three double quotes. *)
Definition tripleQuote : string :=
  String "034" (String "034" (String "034" EmptyString)).

Definition cStyle : CommentPatterns :=
  mkPatterns (Some "//") (Some "/*") (Some "*/").

Definition markupStyle : CommentPatterns :=
  mkPatterns None (Some "<!--") (Some "-->").

Definition patterns : list (string * CommentPatterns) :=
  [ ("JavaScript", cStyle);
    ("JavaScript React", cStyle);
    ("TypeScript", cStyle);
    ("TypeScript React", cStyle);
    ("Java", cStyle);
    ("C++", cStyle);
    ("C", cStyle);
    ("C Header", cStyle);
    ("C++ Header", cStyle);
    ("C#", cStyle);
    ("PHP", cStyle);
    ("CSS", mkPatterns None (Some "/*") (Some "*/"));
    ("SCSS", cStyle);
    ("Sass", mkPatterns (Some "//") None None);
    ("Less", cStyle);
    ("Python", mkPatterns (Some "#") (Some tripleQuote) (Some tripleQuote));
    ("Ruby", mkPatterns (Some "#") (Some "=begin") (Some "=end"));
    ("Go", cStyle);
    ("Rust", cStyle);
    ("Swift", cStyle);
    ("Kotlin", cStyle);
    ("Dart", cStyle);
    ("Shell", mkPatterns (Some "#") None None);
    ("Batch", mkPatterns (Some "REM") None None);
    ("PowerShell", mkPatterns (Some "#") (Some "<#") (Some "#>"));
    ("HTML", markupStyle);
    ("XML", markupStyle);
    ("Vue", markupStyle);
    ("SQL", mkPatterns (Some "--") (Some "/*") (Some "*/"));
    ("YAML", mkPatterns (Some "#") None None) ].

(** The fallback literal [{ single: '//' }]. *)
Definition defaultPatterns : CommentPatterns :=
  mkPatterns (Some "//") None None.

(** What the classifier reads from a built-in object returned by the table
    read: it has none of the three properties. *)
Definition builtinPatterns : CommentPatterns :=
  mkPatterns None None None.

(** [patterns[language] || { single: '//' }] *)
Definition getCommentPatterns (language : value) : CommentPatterns :=
  let key := toPropertyKey language in
  match getOwn patterns key with
  | Some entry => entry
  | None => if inherited key then builtinPatterns else defaultPatterns
  end.

(** ** Line classifier *)

(** The four variables the loop of [analyzeFileContent] updates. *)
Record ScanState : Type := mkScan {
  blankLines : nat;
  commentLines : nat;
  codeLines : nat;
  inBlockComment : bool;
}.

Definition initialScan : ScanState := mkScan 0 0 0 false.

(** The guard [patterns.blockStart && patterns.blockEnd], with the two
    markers when it passes. *)
Definition blockMarkers (p : CommentPatterns) : option (string * string) :=
  match blockStart p, blockEnd p with
  | Some bs, Some be =>
      if truthy (Some bs) && truthy (Some be) then Some (bs, be) else None
  | _, _ => None
  end.

(** The block-comment part of the loop body on a non-blank trimmed line:
    the pair of [isComment] and the new [inBlockComment]. *)
Definition blockStep (p : CommentPatterns) (inBlock : bool) (trimmed : string)
  : bool * bool :=
  match blockMarkers p with
  | Some (bs, be) =>
      if inBlock then
        (true, if includes trimmed be then false else inBlock)
      else if includes trimmed bs then
        (true, if includes trimmed be then false else true)
      else (false, inBlock)
  | None => (false, inBlock)
  end.

(** The single-line part: the condition under which [isComment] is set when
    the block part left it false. *)
Definition singleStep (p : CommentPatterns) (trimmed : string) : bool :=
  match single p with
  | Some marker =>
      truthy (Some marker) &&
      (startsWith trimmed marker
       || (String.eqb marker "REM" && startsWith (toLowerCase trimmed) "rem "))
  | None => false
  end.

(** One iteration of the [for (const line of lines)] loop. *)
Definition scanLine (p : CommentPatterns) (st : ScanState) (line : string)
  : ScanState :=
  let trimmed := trim line in
  if String.eqb trimmed EmptyString then
    mkScan (S (blankLines st)) (commentLines st) (codeLines st)
           (inBlockComment st)
  else
    let '(isComment, inBlock) := blockStep p (inBlockComment st) trimmed in
    let isComment := if isComment then true else singleStep p trimmed in
    if isComment then
      mkScan (blankLines st) (S (commentLines st)) (codeLines st) inBlock
    else
      mkScan (blankLines st) (commentLines st) (S (codeLines st)) inBlock.

Definition scanLines (p : CommentPatterns) (st : ScanState)
  (ls : list string) : ScanState :=
  fold_left (scanLine p) ls st.

Definition newline : ascii := "010".

Definition analyzeFileContent (content filename : string) (language : value)
  : FileStats :=
  let lines := split newline content in
  let patterns := getCommentPatterns language in
  let st := scanLines patterns initialScan lines in
  mkFileStats filename language (length lines)
              (blankLines st) (commentLines st) (codeLines st).

(** ** Aggregation *)

Definition zeroStats : LanguageStats := mkLanguageStats 0 0 0 0 0.

(** The five updates [languageStats[language].files++], [... += ...]. *)
Definition addFile (analysis : FileStats) (stats : LanguageStats)
  : LanguageStats :=
  mkLanguageStats (ls_files stats + 1)
                  (ls_blank stats + blank analysis)
                  (ls_comment stats + comment analysis)
                  (ls_code stats + code analysis)
                  (ls_total stats + lines analysis).

(** In-place update of the own property [key]. *)
Fixpoint alterOwn {V} (f : V -> V) (key : string) (obj : list (string * V))
  : list (string * V) :=
  match obj with
  | [] => []
  | (k, v) :: obj' =>
      if String.eqb k key then (k, f v) :: obj'
      else (k, v) :: alterOwn f key obj'
  end.

(** The part of the loop body of [useCodeAnalyzer] that follows
    [fileAnalyses.push(analysis)]. When [languageStats] has no own property
    under the key and [Object.prototype] has a member of that name, the read
    [languageStats[language]] yields that built-in object: it is truthy, no
    entry is created, and the five updates land on the built-in object, so
    the own properties stay as they are. *)
Definition accumulate (languageStats : list (string * LanguageStats))
  (analysis : FileStats) : list (string * LanguageStats) :=
  let key := toPropertyKey (language analysis) in
  match getOwn languageStats key with
  | Some _ => alterOwn (addFile analysis) key languageStats
  | None =>
      if inherited key then languageStats
      else alterOwn (addFile analysis) key (languageStats ++ [(key, zeroStats)])%list
  end.

(** The loop restricted to the per-file entries. *)
Definition aggregate (analyses : list FileStats)
  : list (string * LanguageStats) :=
  fold_left accumulate analyses [].

(** The reducer passed to [reduce]. *)
Definition addStats (acc stats : LanguageStats) : LanguageStats :=
  mkLanguageStats (ls_files acc + ls_files stats)
                  (ls_blank acc + ls_blank stats)
                  (ls_comment acc + ls_comment stats)
                  (ls_code acc + ls_code stats)
                  (ls_total acc + ls_total stats).

(** [Object.values(languageStats).reduce(..., zero)] *)
Definition grandTotal (languageStats : list (string * LanguageStats))
  : LanguageStats :=
  fold_left addStats (map snd languageStats) zeroStats.

(** An input file: its name and the outcome of [file.text()], [None] when
    the call throws or the promise rejects. *)
Module File.
Record t : Type := mk { name : string; text : option string }.
End File.

Record AnalysisResult : Type := mkResult {
  languages : list (string * LanguageStats);
  total : LanguageStats;
  files : list FileStats;
}.

(** One iteration of [for (const file of files)]; a failure of
    [file.text()] is caught and the file skipped. *)
Definition analyzeFile
  (st : list FileStats * list (string * LanguageStats)) (file : File.t)
  : list FileStats * list (string * LanguageStats) :=
  match File.text file with
  | None => st
  | Some content =>
      let language := getLanguageFromExtension (File.name file) in
      let analysis := analyzeFileContent content (File.name file) language in
      ((fst st ++ [analysis])%list, accumulate (snd st) analysis)
  end.

Definition useCodeAnalyzer (files : list File.t) : AnalysisResult :=
  let '(fileAnalyses, languageStats) := fold_left analyzeFile files ([], []) in
  mkResult languageStats (grandTotal languageStats) fileAnalyses.

(** ** Notions used to state the properties *)

(** A one-character string holding the newline, to write contents. *)
Definition nl : string := String newline EmptyString.

(** The number of occurrences of a code unit in a string. *)
Fixpoint occurrences (c : ascii) (s : string) : nat :=
  match s with
  | EmptyString => 0
  | String a s' => (if Ascii.eqb a c then 1 else 0) + occurrences c s'
  end.

(** The per-file entry of an input file, when its text can be read. *)
Definition analyze (file : File.t) : option FileStats :=
  match File.text file with
  | None => None
  | Some content =>
      Some (analyzeFileContent content (File.name file)
              (getLanguageFromExtension (File.name file)))
  end.

(** No own property is named like a member of the prototype. *)
Definition shadowFree {V} (obj : list (string * V)) : Prop :=
  forall key, inherited key = true -> getOwn obj key = None.

(** Two objects with the same own properties, whatever their order. *)
Definition sameEntries {V} (obj obj' : list (string * V)) : Prop :=
  forall key, getOwn obj key = getOwn obj' key.

(** The labels of the extension table that have no entry in the grammar
    table. *)
Definition fallbackLabels : list string := ["JSON"; "Markdown"; "Text"].

(** The contents of the worked examples. *)
Definition exampleJs : string :=
  "a" ++ nl ++ "// comment" ++ nl ++ nl ++ "b = 1" ++ nl.

Definition exampleUnterminated : string :=
  "/* never closes" ++ nl ++ "line2" ++ nl.

Definition exampleDocstring : string :=
  tripleQuote ++ nl ++ "# note" ++ nl ++ "   " ++ nl ++ tripleQuote.

Definition exampleCpp : string :=
  "/* start" ++ nl ++ "still comment" ++ nl ++ "end */" ++ nl ++ "code()" ++ nl.

Definition exampleBatch : string :=
  "REM note" ++ nl ++ "rem also a comment" ++ nl ++ "echo hi" ++ nl.

(** The test of the first branch of the loop body. *)
Definition isBlankLine (line : string) : bool :=
  String.eqb (trim line) EmptyString.

(** What one per-file entry adds to the grand total: nothing when its key
    names a member of [Object.prototype], since no entry is created then. *)
Definition contribution (analysis : FileStats) : LanguageStats :=
  if inherited (toPropertyKey (language analysis)) then zeroStats
  else mkLanguageStats 1 (blank analysis) (comment analysis)
                       (code analysis) (lines analysis).

(** ** Presentation of the report (AnalysisResults) *)

(** [arr.sort((a, b) => b.code - a.code)]: the sort of the language is
    stable, and the comparator orders by decreasing [code], so the outcome
    is the stable arrangement by decreasing key, computed here by insertion:
    an element goes before the first one whose key is not larger. *)
Fixpoint insertDesc {A} (key : A -> nat) (x : A) (l : list A) : list A :=
  match l with
  | [] => [x]
  | y :: l' =>
      if (key y <=? key x)%nat then x :: l else y :: insertDesc key x l'
  end.

Definition sortDesc {A} (key : A -> nat) (l : list A) : list A :=
  fold_right (insertDesc key) [] l.

(** [x] may stand before [y] in decreasing order of the key. *)
Definition byDecreasing {A} (key : A -> nat) (x y : A) : Prop :=
  key y <= key x.

(** One element of [languageData]. *)
Record LanguageDatum : Type := mkDatum {
  ld_name : string;
  ld_code : nat;
  ld_comment : nat;
  ld_blank : nat;
  ld_files : nat;
  ld_percentage : string;
}.

(** The callback of the [map] that builds [languageData]. The percentage
    text is computed in floating point,
    [((stats.code / result.total.code) * 100).toFixed(1)]; it is taken as a
    function [percentage] of the two counts. *)
Definition languageDatum (percentage : nat -> nat -> string)
  (result : AnalysisResult) (entry : string * LanguageStats)
  : LanguageDatum :=
  let (name, stats) := entry in
  mkDatum name (ls_code stats) (ls_comment stats) (ls_blank stats)
          (ls_files stats)
          (percentage (ls_code stats) (ls_code (total result))).

(** [Object.entries(result.languages).map(...).sort(...)] *)
Definition languageData (percentage : nat -> nat -> string)
  (result : AnalysisResult) : list LanguageDatum :=
  sortDesc ld_code
    (map (languageDatum percentage result) (languages result)).

(** A non-negative integer in a template literal. *)
Definition decimal (n : nat) : string :=
  NilEmpty.string_of_uint (Nat.to_uint n).

(** One element of [pieData]. *)
Record PieSlice : Type := mkSlice {
  ps_name : string;
  ps_value : nat;
  ps_color : string;
}.

(** [languageData.slice(0, 8).map((lang, index) => ...)] *)
Definition pieData (percentage : nat -> nat -> string)
  (result : AnalysisResult) : list PieSlice :=
  imap (fun index lang =>
          mkSlice (ld_name lang) (ld_code lang)
                  ("hsl(" ++ decimal (200 + index * 25)%nat ++ ", 70%, "
                   ++ decimal (50 + index * 5)%nat ++ "%)"))
       (take 8 (languageData percentage result)).

(** The rows of the file table, [result.files.sort(...)]: the sort is in
    place, so the report the component was given holds the sorted array
    afterwards. *)
Definition renderFileRows (result : AnalysisResult) : AnalysisResult :=
  mkResult (languages result) (total result) (sortDesc code (files result)).

(** ** Selection of the files (FileUpload) *)

(** [arr.filter((x, i) => f(x, i))], [i] counting from [start]. *)
Fixpoint filterIndexed {A} (f : A -> nat -> bool) (start : nat) (arr : list A)
  : list A :=
  match arr with
  | [] => []
  | x :: arr' =>
      if f x start then x :: filterIndexed f (S start) arr'
      else filterIndexed f (S start) arr'
  end.

(** [selectedFiles.filter((_, i) => i !== index)] of [removeFile]. *)
Definition removeFile {A} (index : nat) (selectedFiles : list A) : list A :=
  filterIndexed (fun _ i => negb (i =? index)%nat) 0 selectedFiles.

(** The name given to an archive entry, [path.split('/').pop() || path]. *)
Definition entryName (path : string) : string :=
  match pop (split "/" path) with
  | Some piece => if String.eqb piece EmptyString then path else piece
  | None => path
  end.

(** The outcome of reading one entry of a zip archive: its path, whether it
    is a directory, and the text [zipFile.async('text')] resolves to, [None]
    when that call fails. *)
Record ZipEntry : Type := mkZipEntry {
  ze_path : string;
  ze_dir : bool;
  ze_text : option string;
}.

(** One entry returned by [Tar.read]: its name and the decoded text of its
    buffer, [None] when the entry has no buffer. *)
Record TarEntry : Type := mkTarEntry {
  te_name : string;
  te_text : option string;
}.

(** A file handed to [processFiles], with the outcomes of the calls made on
    it: [file.text()], [JSZip.loadAsync(file)] with the entries of
    [zip.files] in the order in which [Object.entries] lists them, and
    [Tar.read] on its bytes; [None] stands for a call that throws or a
    promise that rejects. *)
Record Upload : Type := mkUpload {
  up_name : string;
  up_text : option string;
  up_zip : option (list ZipEntry);
  up_tar : option (list TarEntry);
}.

Record ProcessedFile : Type := mkProcessed {
  pf_name : string;
  pf_content : string;
  pf_path : string;
  pf_originalFile : Upload;
}.

(** [s.endsWith(suffix)] *)
Fixpoint endsWith (s suffix : string) : bool :=
  if String.eqb s suffix then true
  else match s with
       | EmptyString => false
       | String _ s' => endsWith s' suffix
       end.

(** The loop over the entries of a zip archive: directories are passed
    over, and the first entry whose text cannot be read ends the loop, the
    entries pushed before it staying in [processedFiles]. *)
Fixpoint zipFiles (file : Upload) (entries : list ZipEntry)
  : list ProcessedFile :=
  match entries with
  | [] => []
  | entry :: entries' =>
      if ze_dir entry then zipFiles file entries'
      else match ze_text entry with
           | Some content =>
               mkProcessed (entryName (ze_path entry)) content
                           (ze_path entry) file
               :: zipFiles file entries'
           | None => []
           end
  end.

(** The loop over the entries of a tar archive: entries without a buffer
    are passed over. *)
Fixpoint tarFiles (file : Upload) (entries : list TarEntry)
  : list ProcessedFile :=
  match entries with
  | [] => []
  | entry :: entries' =>
      match te_text entry with
      | Some content =>
          mkProcessed (entryName (te_name entry)) content (te_name entry) file
          :: tarFiles file entries'
      | None => tarFiles file entries'
      end
  end.

(** What one iteration of the loop of [processFiles] pushes; [None] when
    the iteration throws outside of a [try], which rejects the whole call
    before the selection is set. *)
Definition processFile (file : Upload) : option (list ProcessedFile) :=
  if endsWith (up_name file) ".zip" then
    match up_zip file with
    | Some entries => Some (zipFiles file entries)
    | None => Some []
    end
  else if endsWith (up_name file) ".tar" then
    match up_tar file with
    | Some entries => Some (tarFiles file entries)
    | None => Some []
    end
  else
    match up_text file with
    | Some content =>
        Some [mkProcessed (up_name file) content (up_name file) file]
    | None => None
    end.

(** [processFiles]: the selection passed to [onFilesSelected]. *)
Fixpoint processFiles (files : list Upload) : option (list ProcessedFile) :=
  match files with
  | [] => Some []
  | file :: files' =>
      match processFile file with
      | None => None
      | Some pushed =>
          match processFiles files' with
          | None => None
          | Some rest => Some (pushed ++ rest)%list
          end
      end
  end.

(** A report with nine languages, of one to nine code lines. *)
Definition nineLanguages : AnalysisResult :=
  mkResult
    (map (fun n => (decimal n, mkLanguageStats 1 0 0 n n)) (seq 1 9))
    (mkLanguageStats 9 0 0 45 45) [].

(** The upload is read as an archive. *)
Definition isArchive (file : Upload) : bool :=
  endsWith (up_name file) ".zip" || endsWith (up_name file) ".tar".

(** ** File picker of FileUpload.tsx *)

(** The [accept] attribute of the file input, a comma-separated list of
    extensions the browser offers in its dialog. *)
Definition accept : string :=
  ".js,.jsx,.ts,.tsx,.py,.java,.cpp,.c,.h,.hpp,.cs,.php,.rb,.go,.rs,.swift,.kt,.dart,.vue,.html,.css,.scss,.sass,.less,.xml,.json,.md,.txt,.sql,.sh,.bat,.ps1,.yaml,.yml".

Definition acceptedExtensions : list string := split "," accept.

(** The per-file entry is filed under the given language key. *)
Definition hasKey (key : string) (analysis : FileStats) : bool :=
  String.eqb (toPropertyKey (language analysis)) key.

(** The statistics of a group of per-file entries: their number and the sums
    of their counters. *)
Definition statsOf (analyses : list FileStats) : LanguageStats :=
  mkLanguageStats (length analyses)
                  (sum_list_with blank analyses)
                  (sum_list_with comment analyses)
                  (sum_list_with code analyses)
                  (sum_list_with lines analyses).

(** The text of the input file can be read. *)
Definition readable (file : File.t) : bool :=
  match File.text file with Some _ => true | None => false end.

(** The counters of a per-language entry add up to its total. *)
Definition balanced (stats : LanguageStats) : Prop :=
  ls_total stats = ls_blank stats + ls_comment stats + ls_code stats.

(** Every code unit of the string is white space. *)
Fixpoint allWhiteSpace (s : string) : bool :=
  match s with
  | EmptyString => true
  | String a s' => isWhiteSpace a && allWhiteSpace s'
  end.

(** The verdict of the single-line rule on a line, blank lines apart. *)
Definition isSingleComment (p : CommentPatterns) (line : string) : bool :=
  negb (isBlankLine line) && singleStep p (trim line).

Definition isPlainCode (p : CommentPatterns) (line : string) : bool :=
  negb (isBlankLine line) && negb (singleStep p (trim line)).

(** * Properties *)

(** Case analysis on the final [isComment] of an iteration. *)
Ltac case_verdict :=
  match goal with
  | |- context [if ?c then mkScan _ _ _ _ else mkScan _ _ _ _] => destruct c
  end.

(** ** Worked examples *)

Example split_trailing_newline :
  split newline ("a" ++ nl) = ["a"; EmptyString].
Proof. reflexivity. Qed.

Example split_empty_content : split newline EmptyString = [EmptyString].
Proof. reflexivity. Qed.

Example trim_whitespace_only :
  trim (String "009" (String " " (String "013" EmptyString))) = EmptyString.
Proof. reflexivity. Qed.

Example resolve_unknown_extension :
  getLanguageFromExtension "data.xyz" = VString "Unknown"
  /\ getCommentPatterns (VString "Unknown") = defaultPatterns.
Proof. split; reflexivity. Qed.

Example resolve_upper_case : getLanguageFromExtension "Main.TSX"
                             = VString "TypeScript React".
Proof. reflexivity. Qed.

Example classify_cpp :
  analyzeFileContent exampleCpp "a.cpp" (VString "C++") =
  mkFileStats "a.cpp" (VString "C++") 5 1 3 1.
Proof. reflexivity. Qed.

Example classify_batch :
  analyzeFileContent exampleBatch "run.bat" (VString "Batch") =
  mkFileStats "run.bat" (VString "Batch") 4 1 2 1.
Proof. reflexivity. Qed.

Example analyze_three_files :
  useCodeAnalyzer
    [ File.mk "a.c" (Some "x"); File.mk "b.c" None;
      File.mk "c.py" (Some ("#" ++ nl)); File.mk "d.c" (Some "//") ] =
  mkResult
    [ ("C", mkLanguageStats 2 0 1 1 2); ("Python", mkLanguageStats 1 1 1 0 2) ]
    (mkLanguageStats 3 1 2 1 4)
    [ mkFileStats "a.c" (VString "C") 1 0 0 1;
      mkFileStats "c.py" (VString "Python") 2 1 1 0;
      mkFileStats "d.c" (VString "C") 1 0 1 0 ].
Proof. reflexivity. Qed.

(** ** Strings *)

Section StringFacts.

Lemma eqb_empty_iff (s : string) :
  String.eqb s EmptyString = true <-> s = EmptyString.
Proof. apply String.eqb_eq. Qed.

Lemma split_not_nil (c : ascii) (s : string) : split c s <> [].
Proof.
  induction s as [|a s IH]; simpl; [discriminate|].
  destruct (Ascii.eqb a c); [discriminate|].
  destruct (split c s); discriminate.
Qed.

Lemma split_length (c : ascii) (s : string) :
  length (split c s) = S (occurrences c s).
Proof.
  induction s as [|a s IH]; simpl; [reflexivity|].
  destruct (Ascii.eqb a c); simpl; [now rewrite IH|].
  destruct (split c s) as [|piece pieces] eqn:E; simpl in *; lia.
Qed.

Lemma prefix_iff (p s : string) :
  String.prefix p s = true <-> exists rest, s = p ++ rest.
Proof.
  revert s; induction p as [|a p IH]; intros s.
  - split; [intros _; now exists s|intros _; now destruct s].
  - destruct s as [|b s]; simpl.
    + split; [discriminate|intros [rest H]; discriminate].
    + destruct (ascii_dec a b) as [->|Hne].
      * rewrite IH. split; intros [rest H]; exists rest.
        -- now rewrite H.
        -- now injection H.
      * split; [discriminate|].
        intros [rest H]. injection H as H1 H2. congruence.
Qed.

Lemma includes_unfold (s sub : string) :
  includes s sub =
  if String.prefix sub s then true
  else match s with
       | EmptyString => false
       | String _ s' => includes s' sub
       end.
Proof. destruct s; reflexivity. Qed.

Lemma includes_iff (s sub : string) :
  includes s sub = true <-> exists pre post, s = pre ++ sub ++ post.
Proof.
  induction s as [|a s IH]; rewrite includes_unfold.
  - destruct (String.prefix sub EmptyString) eqn:E.
    + split; [intros _|reflexivity].
      apply prefix_iff in E as [rest E]. now exists EmptyString, rest.
    + split; [discriminate|]. intros (pre & post & H).
      destruct pre; [|discriminate]. simpl in H.
      assert (String.prefix sub EmptyString = true)
        by (apply prefix_iff; now exists post).
      congruence.
  - destruct (String.prefix sub (String a s)) eqn:E.
    + split; [intros _|reflexivity].
      apply prefix_iff in E as [rest E]. now exists EmptyString, rest.
    + rewrite IH. split.
      * intros (pre & post & ->). now exists (String a pre), post.
      * intros (pre & post & H). destruct pre as [|b pre].
        -- simpl in H.
           assert (String.prefix sub (String a s) = true)
             by (apply prefix_iff; now exists post).
           congruence.
        -- injection H as _ H. now exists pre, post.
Qed.

Lemma trimStart_decompose (s : string) :
  exists ws, s = ws ++ trimStart s.
Proof.
  induction s as [|a s [ws IH]]; simpl.
  - now exists EmptyString.
  - destruct (isWhiteSpace a).
    + exists (String a ws). change (String a s = String a (ws ++ trimStart s)).
      now f_equal.
    + now exists EmptyString.
Qed.

Lemma trimEnd_decompose (s : string) :
  exists ws, s = trimEnd s ++ ws.
Proof.
  induction s as [|a s [ws IH]]; simpl.
  - now exists EmptyString.
  - destruct (trimEnd s) as [|b t] eqn:E.
    + destruct (isWhiteSpace a).
      * now exists (String a s).
      * exists ws. change (String a s = String a (EmptyString ++ ws)).
        now f_equal.
    + exists ws. change (String a s = String a (String b t ++ ws)).
      now f_equal.
Qed.

Lemma append_assoc (a b c : string) : (a ++ b) ++ c = a ++ (b ++ c).
Proof.
  induction a as [|x a IH]; [reflexivity|].
  change (String x ((a ++ b) ++ c) = String x (a ++ (b ++ c))).
  now f_equal.
Qed.

(** The trimmed line is a piece of the line: a marker found in the trimmed
    line occurs in the line. *)
Lemma includes_trim (line sub : string) :
  includes (trim line) sub = true -> includes line sub = true.
Proof.
  rewrite !includes_iff. intros (pre & post & H).
  destruct (trimStart_decompose line) as [ws1 H1].
  destruct (trimEnd_decompose (trimStart line)) as [ws2 H2].
  unfold trim in H. exists (ws1 ++ pre), (post ++ ws2).
  rewrite H1 at 1. rewrite H2 at 1. rewrite H.
  now rewrite !append_assoc.
Qed.

End StringFacts.

(** ** Line classifier *)

Section Classifier.

Variable p : CommentPatterns.

Lemma scanLine_blank (st : ScanState) (line : string) :
  isBlankLine line = true ->
  scanLine p st line =
  mkScan (S (blankLines st)) (commentLines st) (codeLines st)
         (inBlockComment st).
Proof. unfold scanLine, isBlankLine. now intros ->. Qed.

Lemma scanLine_nonblank (st : ScanState) (line : string) :
  isBlankLine line = false ->
  scanLine p st line =
  let r := blockStep p (inBlockComment st) (trim line) in
  if (if fst r then true else singleStep p (trim line)) then
    mkScan (blankLines st) (S (commentLines st)) (codeLines st) (snd r)
  else
    mkScan (blankLines st) (commentLines st) (S (codeLines st)) (snd r).
Proof.
  unfold scanLine, isBlankLine. intros ->.
  now destruct (blockStep p (inBlockComment st) (trim line)).
Qed.

(** Every iteration increments exactly one of the three counters. *)
Lemma scanLine_sum (st : ScanState) (line : string) :
  let st' := scanLine p st line in
  blankLines st' + commentLines st' + codeLines st' =
  S (blankLines st + commentLines st + codeLines st).
Proof.
  destruct (isBlankLine line) eqn:E.
  - rewrite (scanLine_blank _ _ E). simpl. lia.
  - rewrite (scanLine_nonblank _ _ E). simpl.
    case_verdict; simpl; lia.
Qed.

Lemma scanLines_sum (ls : list string) (st : ScanState) :
  let st' := scanLines p st ls in
  blankLines st' + commentLines st' + codeLines st' =
  blankLines st + commentLines st + codeLines st + length ls.
Proof.
  unfold scanLines. revert st.
  induction ls as [|line ls IH]; intros st; cbn [fold_left length].
  - cbv zeta. lia.
  - cbv zeta in *. rewrite IH.
    pose proof (scanLine_sum st line) as H. cbv zeta in H. lia.
Qed.

(** The blank counter counts the lines whose trimmed form is empty, the other
    two counters share the remaining lines. *)
Lemma scanLines_blank_count (ls : list string) (st : ScanState) :
  let st' := scanLines p st ls in
  blankLines st' = blankLines st + length (List.filter isBlankLine ls)
  /\ commentLines st' + codeLines st' =
     commentLines st + codeLines st
     + length (List.filter (fun l => negb (isBlankLine l)) ls).
Proof.
  revert st. induction ls as [|line ls IH]; intros st.
  - simpl. lia.
  - specialize (IH (scanLine p st line)).
    cbn [scanLines fold_left] in *. unfold scanLines in IH.
    destruct IH as [IH1 IH2]. rewrite IH1, IH2.
    cbn [List.filter]. destruct (isBlankLine line) eqn:E.
    + rewrite (scanLine_blank _ _ E). simpl. lia.
    + rewrite (scanLine_nonblank _ _ E). simpl.
      case_verdict; simpl; lia.
Qed.

(** Inside a block whose end marker does not come, a line that is not blank
    is a comment line and the block stays open. *)
Lemma scanLine_inside_block (bs be : string) (st : ScanState) (line : string) :
  blockMarkers p = Some (bs, be) ->
  inBlockComment st = true ->
  isBlankLine line = false ->
  includes (trim line) be = false ->
  scanLine p st line =
  mkScan (blankLines st) (S (commentLines st)) (codeLines st) true.
Proof.
  intros Hm Hin Hnb Hend. rewrite (scanLine_nonblank _ _ Hnb).
  unfold blockStep. rewrite Hm, Hin, Hend. reflexivity.
Qed.

Lemma scanLines_inside_block (bs be : string) (rest : list string)
  (st : ScanState) :
  blockMarkers p = Some (bs, be) ->
  inBlockComment st = true ->
  Forall (fun line => includes (trim line) be = false) rest ->
  scanLines p st rest =
  mkScan (blankLines st + length (List.filter isBlankLine rest))
         (commentLines st
          + length (List.filter (fun l => negb (isBlankLine l)) rest))
         (codeLines st) true.
Proof.
  intros Hm. revert st.
  induction rest as [|line rest IH]; intros st Hin Hall.
  - destruct st; simpl in *. subst. f_equal; lia.
  - inversion Hall as [|? ? Hline Hrest]; subst.
    cbn [scanLines fold_left]. fold (scanLines p (scanLine p st line) rest).
    cbn [List.filter]. destruct (isBlankLine line) eqn:E.
    + rewrite (scanLine_blank _ _ E).
      rewrite IH by assumption. simpl. f_equal; lia.
    + rewrite (scanLine_inside_block bs be) by assumption.
      rewrite IH by (simpl; auto). simpl. f_equal; lia.
Qed.

End Classifier.

Lemma scanLine_same_marker (p : CommentPatterns) (m : string)
  (st : ScanState) (line : string) :
  blockMarkers p = Some (m, m) ->
  inBlockComment st = false ->
  inBlockComment (scanLine p st line) = false.
Proof.
  intros Hm Hout. destruct (isBlankLine line) eqn:E.
  - now rewrite (scanLine_blank _ _ _ E).
  - rewrite (scanLine_nonblank _ _ _ E). unfold blockStep.
    rewrite Hm, Hout. destruct (includes (trim line) m) eqn:Hi; simpl;
      try case_verdict; reflexivity.
Qed.

Lemma scanLines_same_marker (p : CommentPatterns) (m : string)
  (ls : list string) (st : ScanState) :
  blockMarkers p = Some (m, m) ->
  inBlockComment st = false ->
  inBlockComment (scanLines p st ls) = false.
Proof.
  intros Hm. unfold scanLines. revert st.
  induction ls as [|line ls IH]; intros st Hout; cbn [fold_left].
  - assumption.
  - apply IH. now apply (scanLine_same_marker p m).
Qed.

(** C1. For every content and every language the three counters returned by
    [analyzeFileContent] add up to [lines], and [lines] is the number of
    pieces of the content split at the newline, one more than the number of
    newline characters. *)
Theorem C1_counters_partition_lines
  (content filename : string) (language : value) :
  let a := analyzeFileContent content filename language in
  blank a + comment a + code a = lines a
  /\ lines a = length (split newline content)
  /\ lines a = S (occurrences newline content).
Proof.
  cbv zeta. unfold analyzeFileContent. cbn [blank comment code lines].
  split; [|split; [reflexivity|apply split_length]].
  pose proof (scanLines_sum (getCommentPatterns language)
                (split newline content) initialScan) as H.
  cbv zeta in H. rewrite H. simpl. reflexivity.
Qed.

(** C3, as the code has it. The example content ends with a newline, so the
    split yields five pieces, the last one empty: classifying it under
    JavaScript gives lines = 5, blank = 2, comment = 1 and code = 2. *)
Theorem C3_example_javascript (filename : string) :
  analyzeFileContent exampleJs filename (VString "JavaScript") =
  mkFileStats filename (VString "JavaScript") 5 2 1 2.
Proof. reflexivity. Qed.

(** C3, as stated, fails: the result does not have lines = 4 and
    blank = 1. *)
Lemma C3_counterexample :
  let a := analyzeFileContent exampleJs "example.js" (VString "JavaScript") in
  ~ (lines a = 4 /\ blank a = 1 /\ comment a = 1 /\ code a = 2).
Proof. cbv zeta. vm_compute. intros [H _]. discriminate H. Qed.

(** C4. Under a grammar with both block markers, from a state inside a block
    comment, if the end marker occurs in none of the remaining lines, every
    remaining line that is not blank is counted as a comment, none as code,
    and the block is still open at the end of the content. The unterminated
    example under C has two comment lines and no code line. *)
Theorem C4_unterminated_block_comment
  (language : value) (bs be : string) (st : ScanState) (rest : list string)
  (filename : string) :
  blockMarkers (getCommentPatterns language) = Some (bs, be) ->
  inBlockComment st = true ->
  Forall (fun line => includes line be = false) rest ->
  scanLines (getCommentPatterns language) st rest =
    mkScan (blankLines st + length (List.filter isBlankLine rest))
           (commentLines st
            + length (List.filter (fun l => negb (isBlankLine l)) rest))
           (codeLines st) true
  /\ comment (analyzeFileContent exampleUnterminated filename (VString "C")) = 2
  /\ code (analyzeFileContent exampleUnterminated filename (VString "C")) = 0.
Proof.
  intros Hm Hin Hall. split; [|split; reflexivity].
  apply (scanLines_inside_block _ bs be); [assumption..|].
  eapply Forall_impl; [exact Hall|]. intros line Hline. simpl in *.
  destruct (includes (trim line) be) eqn:E; [|reflexivity].
  apply includes_trim in E. congruence.
Qed.

Lemma C4_witness :
  blockMarkers (getCommentPatterns (VString "C")) = Some ("/*", "*/")
  /\ scanLines (getCommentPatterns (VString "C")) (mkScan 0 1 0 true)
       ["line2"; EmptyString] = mkScan 1 2 0 true.
Proof.
  split; [reflexivity|].
  pose proof (C4_unterminated_block_comment (VString "C") "/*" "*/"
                (mkScan 0 1 0 true) ["line2"; EmptyString] "a.c") as H.
  destruct H as [H _].
  - reflexivity.
  - reflexivity.
  - repeat constructor.
  - exact H.
Defined.

(** C5. A line whose trimmed form is empty increments the blank counter and
    nothing else: the comment and code counters and the block state are
    returned as they were, whatever the block state is. Over a whole content
    the blank counter is the number of such lines and the other two counters
    share the remaining lines. *)
Theorem C5_blank_line_counts_blank_only
  (language : value) (content filename : string) (st : ScanState)
  (line : string) :
  trim line = EmptyString ->
  scanLine (getCommentPatterns language) st line =
    mkScan (S (blankLines st)) (commentLines st) (codeLines st)
           (inBlockComment st)
  /\ blank (analyzeFileContent content filename language) =
     length (List.filter isBlankLine (split newline content))
  /\ comment (analyzeFileContent content filename language)
     + code (analyzeFileContent content filename language) =
     length (List.filter (fun l => negb (isBlankLine l))
               (split newline content)).
Proof.
  intros Hblank. split.
  - apply scanLine_blank. unfold isBlankLine. now rewrite Hblank.
  - unfold analyzeFileContent. cbn [blank comment code].
    pose proof (scanLines_blank_count (getCommentPatterns language)
                  (split newline content) initialScan) as H.
    cbv zeta in H. simpl in H. exact H.
Qed.

Lemma C5_witness :
  trim "  " = EmptyString
  /\ scanLine (getCommentPatterns (VString "C")) (mkScan 0 1 0 true) "  " =
     mkScan 1 1 0 true.
Proof.
  split; [reflexivity|].
  pose proof (C5_blank_line_counts_blank_only (VString "C")
                exampleUnterminated "a.c" (mkScan 0 1 0 true) "  ") as H.
  destruct H as [H _]; [reflexivity|exact H].
Defined.

(** C6. Under a grammar with both block markers, on a line that is not
    blank: inside a block the line is a comment and the new state is open
    exactly when the end marker is absent from the trimmed line, whether or
    not the start marker occurs in it, so a closing line never reopens;
    outside a block a line holding the start marker is a comment and opens
    the block, which is closed at once when the end marker occurs in the
    same line; a line without the start marker leaves the block closed. *)
Theorem C6_closing_line_never_reopens
  (p : CommentPatterns) (bs be : string) (st : ScanState) (line : string) :
  blockMarkers p = Some (bs, be) ->
  isBlankLine line = false ->
  let st' := scanLine p st line in
  (inBlockComment st = true ->
     commentLines st' = S (commentLines st)
     /\ inBlockComment st' = negb (includes (trim line) be))
  /\ (inBlockComment st = false -> includes (trim line) bs = true ->
     commentLines st' = S (commentLines st)
     /\ inBlockComment st' = negb (includes (trim line) be))
  /\ (inBlockComment st = false -> includes (trim line) bs = false ->
     inBlockComment st' = false).
Proof.
  intros Hm Hnb. cbv zeta. rewrite (scanLine_nonblank _ _ _ Hnb).
  unfold blockStep. rewrite Hm. split; [|split].
  - intros ->. now destruct (includes (trim line) be).
  - intros -> ->. now destruct (includes (trim line) be).
  - intros -> ->. simpl. case_verdict; reflexivity.
Qed.

Lemma C6_witness :
  blockMarkers cStyle = Some ("/*", "*/")
  /\ inBlockComment (scanLine cStyle (mkScan 0 1 0 true) "*/ x /*") = false.
Proof.
  split; [reflexivity|].
  pose proof (C6_closing_line_never_reopens cStyle "/*" "*/"
                (mkScan 0 1 0 true) "*/ x /*") as H.
  destruct H as [H _]; [reflexivity|reflexivity|].
  destruct (H eq_refl) as [_ H']. exact H'.
Defined.

(** Between two lines holding the one marker, scanned from outside a block,
    every line without the marker is classified on its own. *)
Lemma scanLines_without_marker (p : CommentPatterns) (m : string)
  (ls : list string) (st : ScanState) :
  blockMarkers p = Some (m, m) ->
  inBlockComment st = false ->
  Forall (fun l => includes (trim l) m = false) ls ->
  scanLines p st ls =
  mkScan (blankLines st + length (List.filter isBlankLine ls))
         (commentLines st + length (List.filter (isSingleComment p) ls))
         (codeLines st + length (List.filter (isPlainCode p) ls))
         false.
Proof.
  intros Hm. revert st. induction ls as [|line ls IH]; intros st Hout Hall.
  - destruct st; simpl in *. subst. f_equal; lia.
  - inversion Hall as [|? ? Hline Hrest]; subst.
    change (scanLines p st (line :: ls))
      with (scanLines p (scanLine p st line) ls).
    rewrite IH; [|now apply (scanLine_same_marker p m)|assumption].
    cbn [List.filter]. unfold isSingleComment, isPlainCode.
    destruct (isBlankLine line) eqn:E.
    + rewrite (scanLine_blank _ _ _ E). simpl. f_equal; lia.
    + rewrite (scanLine_nonblank _ _ _ E). unfold blockStep.
      rewrite Hm, Hout, Hline. simpl.
      destruct (singleStep p (trim line)); simpl; f_equal; lia.
Qed.

(** C10, as the code has it. Under a grammar whose two block markers are the
    same string the block state is false after any sequence of lines scanned
    from the initial state: a line that is not blank and holds the marker is
    a comment line and leaves the block closed. The lines strictly between
    two delimiter lines are therefore classified each on its own: a line
    whose trimmed form is empty is a blank line, a line whose trimmed form
    starts with the single-line marker is a comment line, and every other
    line is a code line. *)
Theorem C10_same_marker_never_opens
  (language : value) (m : string) (ls : list string) (st : ScanState)
  (line opening closing : string) (between : list string) :
  blockMarkers (getCommentPatterns language) = Some (m, m) ->
  let p := getCommentPatterns language in
  inBlockComment (scanLines p initialScan ls) = false
  /\ (inBlockComment st = false -> isBlankLine line = false ->
      includes (trim line) m = true ->
      scanLine p st line =
      mkScan (blankLines st) (S (commentLines st)) (codeLines st) false)
  /\ (inBlockComment st = false -> isBlankLine line = false ->
      includes (trim line) m = false ->
      scanLine p st line =
      if singleStep p (trim line)
      then mkScan (blankLines st) (S (commentLines st)) (codeLines st) false
      else mkScan (blankLines st) (commentLines st) (S (codeLines st)) false)
  /\ (inBlockComment st = false -> isBlankLine line = true ->
      scanLine p st line =
      mkScan (S (blankLines st)) (commentLines st) (codeLines st) false)
  /\ (inBlockComment st = false ->
      isBlankLine opening = false -> includes (trim opening) m = true ->
      isBlankLine closing = false -> includes (trim closing) m = true ->
      Forall (fun l => includes (trim l) m = false) between ->
      scanLines p st (opening :: between ++ [closing]) =
      mkScan (blankLines st + length (List.filter isBlankLine between))
             (commentLines st + 2
              + length (List.filter (isSingleComment p) between))
             (codeLines st + length (List.filter (isPlainCode p) between))
             false).
Proof.
  intros Hm. cbv zeta.
  assert (forall s l, inBlockComment s = false -> isBlankLine l = false ->
            includes (trim l) m = true ->
            scanLine (getCommentPatterns language) s l =
            mkScan (blankLines s) (S (commentLines s)) (codeLines s) false)
    as Hdelim.
  { intros s l Hout Hnb Hi. rewrite (scanLine_nonblank _ _ _ Hnb).
    unfold blockStep. now rewrite Hm, Hout, Hi. }
  split; [|split; [|split; [|split]]].
  - now apply (scanLines_same_marker _ m).
  - apply Hdelim.
  - intros Hout Hnb Hi. rewrite (scanLine_nonblank _ _ _ Hnb).
    unfold blockStep. now rewrite Hm, Hout, Hi.
  - intros Hout Hb. rewrite (scanLine_blank _ _ _ Hb). now rewrite Hout.
  - intros Hout Hob Hoi Hcb Hci Hall.
    change (scanLines (getCommentPatterns language) st
              (opening :: between ++ [closing]))
      with (scanLines (getCommentPatterns language)
              (scanLine (getCommentPatterns language) st opening)
              (between ++ [closing])).
    unfold scanLines at 1. rewrite fold_left_app.
    fold (scanLines (getCommentPatterns language)
            (scanLine (getCommentPatterns language) st opening) between).
    rewrite (Hdelim st opening Hout Hob Hoi).
    rewrite (scanLines_without_marker _ m between) by (assumption || reflexivity).
    cbn [fold_left]. rewrite Hdelim by (assumption || reflexivity).
    simpl. f_equal; lia.
Qed.

Lemma C10_witness :
  blockMarkers (getCommentPatterns (VString "Python"))
  = Some (tripleQuote, tripleQuote)
  /\ scanLines (getCommentPatterns (VString "Python")) initialScan
       [tripleQuote; "text"; "# note"; "   "; tripleQuote]
     = mkScan 1 3 1 false.
Proof.
  split; [reflexivity|].
  pose proof (C10_same_marker_never_opens (VString "Python") tripleQuote
                [tripleQuote; "text"; tripleQuote] initialScan
                "text" tripleQuote tripleQuote ["text"; "# note"; "   "]
                eq_refl) as H.
  cbv zeta in H. destruct H as (_ & _ & _ & _ & H).
  apply H; try reflexivity. repeat constructor.
Defined.

(** C10, as stated, fails: in the docstring example the two lines between
    the delimiter lines are not counted as code. The first starts with the
    single-line marker and is counted as a comment, the second holds white
    space only and is counted as blank; no line of the content is counted as
    code. *)
Lemma C10_counterexample :
  let a := analyzeFileContent exampleDocstring "m.py" (VString "Python") in
  split newline exampleDocstring
  = [tripleQuote; "# note"; "   "; tripleQuote]
  /\ comment a = 3 /\ blank a = 1 /\ code a = 0.
Proof. cbv zeta. repeat split. Qed.

(** ** Language resolver and grammar table *)

Lemma getOwn_In {V} (obj : list (string * V)) (key : string) (v : V) :
  getOwn obj key = Some v -> In (key, v) obj.
Proof.
  induction obj as [|[k w] obj IH]; simpl; [discriminate|].
  destruct (String.eqb k key) eqn:E.
  - apply String.eqb_eq in E. intros [= ->]. left. now subst.
  - intros H. right. now apply IH.
Qed.

Lemma split_without_separator (c : ascii) (s : string) :
  occurrences c s = 0 -> split c s = [s].
Proof.
  induction s as [|a s IH]; simpl; [reflexivity|].
  destruct (Ascii.eqb a c); [discriminate|].
  intros H. now rewrite IH.
Qed.

Lemma last_split_after_separator (c : ascii) (pre suf : string) :
  last (split c (pre ++ String c suf)) = last (split c suf).
Proof.
  induction pre as [|a pre IH].
  - simpl. rewrite Ascii.eqb_refl.
    destruct (split c suf) eqn:E; [now apply split_not_nil in E|reflexivity].
  - change (String a pre ++ String c suf)
      with (String a (pre ++ String c suf)).
    cbn [split]. rewrite <- IH.
    pose proof (split_not_nil c (pre ++ String c suf)) as Hne.
    pose proof (split_length c (pre ++ String c suf)) as Hlen.
    destruct (Ascii.eqb a c).
    + destruct (split c (pre ++ String c suf)); [contradiction|reflexivity].
    + destruct (split c (pre ++ String c suf)) as [|x [|y l]] eqn:E;
        [contradiction| |reflexivity].
      exfalso. simpl in Hlen.
      assert (occurrences c (pre ++ String c suf) >= 1); [|lia].
      clear. induction pre as [|b pre IH]; simpl.
      * rewrite Ascii.eqb_refl. lia.
      * lia.
Qed.

(** With a dot in the name the extension is the lower-cased text after the
    last dot. *)
Lemma extensionOf_dotted (pre suf : string) :
  occurrences "." suf = 0 ->
  extensionOf (pre ++ String "." suf) = toLowerCase suf.
Proof.
  intros H. unfold extensionOf, pop.
  rewrite last_split_after_separator, split_without_separator by assumption.
  reflexivity.
Qed.

(** Without a dot the split has one piece, the name itself, and the
    extension is the whole lower-cased name. *)
Lemma extensionOf_dotless (filename : string) :
  occurrences "." filename = 0 ->
  extensionOf filename = toLowerCase filename.
Proof.
  intros H. unfold extensionOf, pop.
  now rewrite split_without_separator.
Qed.

(** C2, the code at the failing inputs. The name [c] holds no dot; its
    extension is not empty but the name itself, and the resolver answers
    [C], not [Unknown]. The extension [constructor] is absent from the
    table, and the resolver answers the built-in object found on the
    prototype, not [Unknown]. *)
Theorem C2_dotless_name_is_its_own_extension :
  occurrences "." "c" = 0
  /\ extensionOf "c" = "c"
  /\ getLanguageFromExtension "c" = VString "C"
  /\ getOwn languageMap (extensionOf "x.constructor") = None
  /\ getLanguageFromExtension "x.constructor" = VBuiltin "constructor".
Proof. repeat split. Qed.

(** Each label of the extension table lacks a grammar entry exactly when it
    is one of the fallback labels, and none names a prototype member. *)
Lemma languageMap_labels :
  List.Forall
    (fun entry : string * string =>
       (getOwn patterns (snd entry) = None <-> In (snd entry) fallbackLabels)
       /\ inherited (snd entry) = false)
    languageMap.
Proof.
  unfold languageMap, fallbackLabels.
  repeat (apply List.Forall_cons || apply List.Forall_nil);
    (split; [|reflexivity]);
    (split; [try discriminate; intros _; simpl; tauto|]);
    try reflexivity;
    simpl; intros H; exfalso;
    repeat (destruct H as [H|H]; [discriminate H|]); exact H.
Qed.

(** The string under which a built-in object indexes a table names no
    prototype member and no grammar entry. *)
Lemma builtin_keys :
  List.Forall
    (fun member : string =>
       inherited (toPropertyKey (VBuiltin member)) = false
       /\ getOwn patterns (toPropertyKey (VBuiltin member)) = None)
    objectPrototypeKeys.
Proof.
  unfold objectPrototypeKeys.
  repeat (apply List.Forall_cons || apply List.Forall_nil);
    split; reflexivity.
Qed.

(** Whatever the file name, the key under which the resolved language
    indexes [languageStats] names no prototype member. *)
Lemma resolver_key_not_inherited (filename : string) :
  inherited (toPropertyKey (getLanguageFromExtension filename)) = false.
Proof.
  unfold getLanguageFromExtension. cbv zeta.
  destruct (getOwn languageMap (extensionOf filename)) as [label|] eqn:E.
  - apply getOwn_In in E.
    exact (proj2 (proj1 (List.Forall_forall _ _) languageMap_labels _ E)).
  - destruct (inherited (extensionOf filename)) eqn:Hi; [|reflexivity].
    unfold inherited in Hi. apply bool_decide_eq_true in Hi.
    apply list_elem_of_In in Hi.
    exact (proj1 (proj1 (List.Forall_forall _ _) builtin_keys _ Hi)).
Qed.

(** C7, as the code has it. A label of the extension table has no entry in
    the grammar table exactly when it is JSON, Markdown or Text; every other
    label of the table has one. A label with no entry that names no member
    of the prototype, such as [Unknown], gets the default grammar: the
    single-line marker [//] and no block markers. *)
Theorem C7_grammar_table_coverage (ext label other : string) :
  getOwn languageMap ext = Some label ->
  getOwn patterns other = None ->
  inherited other = false ->
  (getOwn patterns label = None <-> In label fallbackLabels)
  /\ getCommentPatterns (VString other) = defaultPatterns
  /\ getCommentPatterns (VString "Unknown") = defaultPatterns
  /\ defaultPatterns = mkPatterns (Some "//") None None.
Proof.
  intros Hext Hother Hproto. split; [|split; [|split; reflexivity]].
  - apply getOwn_In in Hext.
    exact (proj1 (proj1 (List.Forall_forall _ _) languageMap_labels _ Hext)).
  - unfold getCommentPatterns. cbn [toPropertyKey].
    now rewrite Hother, Hproto.
Qed.

Lemma C7_witness :
  getOwn languageMap "md" = Some "Markdown"
  /\ getOwn patterns "Markdown" = None
  /\ getCommentPatterns (VString "Markdown") = defaultPatterns.
Proof.
  pose proof (C7_grammar_table_coverage "md" "Markdown" "Markdown"
                eq_refl eq_refl eq_refl) as H.
  destruct H as (_ & H & _).
  split; [reflexivity|split; [reflexivity|exact H]].
Defined.

(** C7, as stated, fails: JSON is a label of the extension table and has no
    entry in the grammar table, so its lookup takes the fallback; and the
    label [constructor], absent from the table, does not get the default
    grammar. *)
Lemma C7_counterexample :
  getOwn languageMap "json" = Some "JSON"
  /\ getOwn patterns "JSON" = None
  /\ getOwn patterns "constructor" = None
  /\ getCommentPatterns (VString "constructor") <> defaultPatterns.
Proof. repeat split. discriminate. Qed.

(** ** Aggregation *)

Section OwnProperties.

Context {V : Type}.

Lemma getOwn_alterOwn (f : V -> V) (key k : string)
  (obj : list (string * V)) :
  getOwn (alterOwn f key obj) k =
  if String.eqb key k then option_map f (getOwn obj k) else getOwn obj k.
Proof.
  induction obj as [|[k0 v] obj IH]; simpl.
  - now destruct (String.eqb key k).
  - destruct (String.eqb k0 key) eqn:E0; simpl.
    + apply String.eqb_eq in E0. subst k0.
      now destruct (String.eqb key k).
    + rewrite IH. destruct (String.eqb k0 k) eqn:E1; [|reflexivity].
      apply String.eqb_eq in E1. subst k.
      now rewrite (String.eqb_sym key k0), E0.
Qed.

Lemma getOwn_snoc (obj : list (string * V)) (key k : string) (v : V) :
  getOwn (obj ++ [(key, v)])%list k =
  match getOwn obj k with
  | Some w => Some w
  | None => if String.eqb key k then Some v else None
  end.
Proof.
  induction obj as [|[k0 w] obj IH]; simpl; [reflexivity|].
  now destruct (String.eqb k0 k).
Qed.

(** Altering an own property changes the sum of a field over the values by
    the change of that value. *)
Lemma sum_alterOwn (g : V -> nat) (f : V -> V) (key : string)
  (obj : list (string * V)) (v : V) :
  getOwn obj key = Some v ->
  sum_list_with (fun e => g (snd e)) (alterOwn f key obj) + g v =
  sum_list_with (fun e => g (snd e)) obj + g (f v).
Proof.
  induction obj as [|[k0 w] obj IH]; simpl; [discriminate|].
  destruct (String.eqb k0 key); simpl.
  - intros [= ->]. lia.
  - intros H. specialize (IH H). lia.
Qed.

End OwnProperties.

Lemma addFile_comm (a b : FileStats) (stats : LanguageStats) :
  addFile a (addFile b stats) = addFile b (addFile a stats).
Proof. unfold addFile. simpl. f_equal; lia. Qed.

(** The own properties after one step of the loop, read by key. *)
Lemma getOwn_accumulate (languageStats : list (string * LanguageStats))
  (analysis : FileStats) (k : string) :
  getOwn (accumulate languageStats analysis) k =
  if String.eqb (toPropertyKey (language analysis)) k then
    match getOwn languageStats k with
    | Some stats => Some (addFile analysis stats)
    | None => if inherited k then None
              else Some (addFile analysis zeroStats)
    end
  else getOwn languageStats k.
Proof.
  unfold accumulate. cbv zeta.
  set (key := toPropertyKey (language analysis)).
  destruct (String.eqb key k) eqn:E.
  - apply String.eqb_eq in E. subst k.
    destruct (getOwn languageStats key) eqn:G.
    + now rewrite getOwn_alterOwn, String.eqb_refl, G.
    + destruct (inherited key); [assumption|].
      now rewrite getOwn_alterOwn, String.eqb_refl, getOwn_snoc, G,
        String.eqb_refl.
  - destruct (getOwn languageStats key) eqn:G.
    + now rewrite getOwn_alterOwn, E.
    + destruct (inherited key); [reflexivity|].
      rewrite getOwn_alterOwn, E, getOwn_snoc, E.
      now destruct (getOwn languageStats k).
Qed.

Lemma accumulate_sameEntries (ls ls' : list (string * LanguageStats))
  (analysis : FileStats) :
  sameEntries ls ls' ->
  sameEntries (accumulate ls analysis) (accumulate ls' analysis).
Proof.
  intros H k. rewrite !getOwn_accumulate, (H k). reflexivity.
Qed.

Lemma accumulate_swap (ls : list (string * LanguageStats))
  (a b : FileStats) :
  sameEntries (accumulate (accumulate ls a) b)
              (accumulate (accumulate ls b) a).
Proof.
  intros k. rewrite !getOwn_accumulate.
  destruct (String.eqb (toPropertyKey (language a)) k),
           (String.eqb (toPropertyKey (language b)) k);
    try reflexivity.
  destruct (getOwn ls k); [now rewrite addFile_comm|].
  destruct (inherited k); [reflexivity|now rewrite addFile_comm].
Qed.

Lemma fold_accumulate_sameEntries (analyses : list FileStats)
  (ls ls' : list (string * LanguageStats)) :
  sameEntries ls ls' ->
  sameEntries (fold_left accumulate analyses ls)
              (fold_left accumulate analyses ls').
Proof.
  revert ls ls'. induction analyses as [|a analyses IH]; intros ls ls' H.
  - exact H.
  - simpl. apply IH. now apply accumulate_sameEntries.
Qed.

Lemma fold_accumulate_Permutation (analyses permuted : list FileStats) :
  Permutation analyses permuted ->
  forall ls,
    sameEntries (fold_left accumulate analyses ls)
                (fold_left accumulate permuted ls).
Proof.
  induction 1 as [|a l l' _ IH|a b l|l l' l'' _ IH1 _ IH2]; intros ls.
  - intros k. reflexivity.
  - simpl. apply IH.
  - simpl. apply fold_accumulate_sameEntries, accumulate_swap.
  - intros k. now rewrite (IH1 ls k), (IH2 ls k).
Qed.

(** The reduce computes the five field sums over the values. *)
Lemma fold_addStats (values : list (string * LanguageStats))
  (acc : LanguageStats) :
  fold_left addStats (map snd values) acc =
  mkLanguageStats
    (ls_files acc + sum_list_with (fun e => ls_files (snd e)) values)
    (ls_blank acc + sum_list_with (fun e => ls_blank (snd e)) values)
    (ls_comment acc + sum_list_with (fun e => ls_comment (snd e)) values)
    (ls_code acc + sum_list_with (fun e => ls_code (snd e)) values)
    (ls_total acc + sum_list_with (fun e => ls_total (snd e)) values).
Proof.
  revert acc. induction values as [|[k v] values IH]; intros acc; simpl.
  - destruct acc; simpl. f_equal; lia.
  - rewrite IH. simpl. f_equal; lia.
Qed.

Lemma grandTotal_fields (languageStats : list (string * LanguageStats)) :
  grandTotal languageStats =
  mkLanguageStats
    (sum_list_with (fun e => ls_files (snd e)) languageStats)
    (sum_list_with (fun e => ls_blank (snd e)) languageStats)
    (sum_list_with (fun e => ls_comment (snd e)) languageStats)
    (sum_list_with (fun e => ls_code (snd e)) languageStats)
    (sum_list_with (fun e => ls_total (snd e)) languageStats).
Proof. unfold grandTotal. now rewrite fold_addStats. Qed.

Lemma shadowFree_nil : shadowFree ([] : list (string * LanguageStats)).
Proof. intros k _. reflexivity. Qed.

Lemma shadowFree_accumulate (ls : list (string * LanguageStats))
  (a : FileStats) :
  shadowFree ls -> shadowFree (accumulate ls a).
Proof.
  intros H k Hk. rewrite getOwn_accumulate, (H k Hk), Hk.
  now destruct (String.eqb _ k).
Qed.

(** One step of the loop adds the contribution of the file to the grand
    total. *)
Lemma grandTotal_accumulate (ls : list (string * LanguageStats))
  (a : FileStats) :
  shadowFree ls ->
  grandTotal (accumulate ls a) = addStats (grandTotal ls) (contribution a).
Proof.
  intros Hfree. rewrite !grandTotal_fields.
  unfold accumulate, contribution. cbv zeta.
  set (key := toPropertyKey (language a)).
  destruct (getOwn ls key) as [stats|] eqn:G.
  - destruct (inherited key) eqn:Hi;
      [rewrite (Hfree key Hi) in G; discriminate|].
    pose proof (fun g => sum_alterOwn g (addFile a) key ls stats G) as H.
    pose proof (H ls_files) as H1. pose proof (H ls_blank) as H2.
    pose proof (H ls_comment) as H3. pose proof (H ls_code) as H4.
    pose proof (H ls_total) as H5. clear H.
    unfold addStats, addFile in *. simpl in *. f_equal; lia.
  - destruct (inherited key) eqn:Hi.
    + unfold addStats. simpl. f_equal; lia.
    + assert (G' : getOwn (ls ++ [(key, zeroStats)])%list key
                   = Some zeroStats)
        by now rewrite getOwn_snoc, G, String.eqb_refl.
      pose proof (fun g => sum_alterOwn g (addFile a) key _ zeroStats G')
        as H.
      pose proof (H ls_files) as H1. pose proof (H ls_blank) as H2.
      pose proof (H ls_comment) as H3. pose proof (H ls_code) as H4.
      pose proof (H ls_total) as H5. clear H.
      rewrite sum_list_with_app in H1, H2, H3, H4, H5.
      unfold addStats, addFile in *. simpl in *. f_equal; lia.
Qed.

Lemma grandTotal_fold_accumulate (analyses : list FileStats)
  (ls : list (string * LanguageStats)) :
  shadowFree ls ->
  grandTotal (fold_left accumulate analyses ls) =
  addStats (grandTotal ls)
    (mkLanguageStats
       (sum_list_with (fun a => ls_files (contribution a)) analyses)
       (sum_list_with (fun a => ls_blank (contribution a)) analyses)
       (sum_list_with (fun a => ls_comment (contribution a)) analyses)
       (sum_list_with (fun a => ls_code (contribution a)) analyses)
       (sum_list_with (fun a => ls_total (contribution a)) analyses)).
Proof.
  revert ls. induction analyses as [|a analyses IH]; intros ls Hfree.
  - simpl. destruct (grandTotal ls). unfold addStats. simpl. f_equal; lia.
  - simpl. rewrite IH by now apply shadowFree_accumulate.
    rewrite grandTotal_accumulate by assumption.
    unfold addStats. simpl. f_equal; lia.
Qed.

(** The grand total of an aggregation is the sum of the contributions. *)
Lemma grandTotal_aggregate (analyses : list FileStats) :
  grandTotal (aggregate analyses) =
  mkLanguageStats
    (sum_list_with (fun a => ls_files (contribution a)) analyses)
    (sum_list_with (fun a => ls_blank (contribution a)) analyses)
    (sum_list_with (fun a => ls_comment (contribution a)) analyses)
    (sum_list_with (fun a => ls_code (contribution a)) analyses)
    (sum_list_with (fun a => ls_total (contribution a)) analyses).
Proof.
  unfold aggregate.
  rewrite grandTotal_fold_accumulate by apply shadowFree_nil.
  reflexivity.
Qed.

Lemma analyzeFile_analyze
  (st : list FileStats * list (string * LanguageStats)) (file : File.t) :
  analyzeFile st file =
  match analyze file with
  | Some a => ((fst st ++ [a])%list, accumulate (snd st) a)
  | None => st
  end.
Proof. unfold analyzeFile, analyze. now destruct (File.text file). Qed.

(** The loop of [useCodeAnalyzer] pushes the entries of the readable files
    in input order and aggregates them. *)
Lemma fold_analyzeFile (inputs : list File.t) (fileAnalyses : list FileStats)
  (languageStats : list (string * LanguageStats)) :
  fold_left analyzeFile inputs (fileAnalyses, languageStats) =
  ((fileAnalyses ++ omap analyze inputs)%list,
   fold_left accumulate (omap analyze inputs) languageStats).
Proof.
  revert fileAnalyses languageStats.
  induction inputs as [|file inputs IH]; intros fa ls; simpl.
  - now rewrite app_nil_r.
  - rewrite analyzeFile_analyze.
    destruct (analyze file) as [a|]; simpl.
    + rewrite IH. now rewrite <- app_assoc.
    + apply IH.
Qed.

Lemma useCodeAnalyzer_aggregate (inputs : list File.t) :
  useCodeAnalyzer inputs =
  mkResult (aggregate (omap analyze inputs))
           (grandTotal (aggregate (omap analyze inputs)))
           (omap analyze inputs).
Proof. unfold useCodeAnalyzer. now rewrite fold_analyzeFile. Qed.

(** The entry of an input file always contributes: its key comes from the
    resolver. *)
Lemma contribution_analyze (file : File.t) (a : FileStats) :
  analyze file = Some a ->
  contribution a = mkLanguageStats 1 (blank a) (comment a) (code a) (lines a).
Proof.
  unfold analyze. destruct (File.text file); [|discriminate].
  intros [= <-]. unfold contribution, analyzeFileContent.
  cbn [language]. now rewrite resolver_key_not_inherited.
Qed.

Lemma contributions_of_inputs (g : LanguageStats -> nat) (h : FileStats -> nat)
  (inputs : list File.t) :
  (forall a, g (mkLanguageStats 1 (blank a) (comment a) (code a) (lines a))
             = h a) ->
  sum_list_with (fun a => g (contribution a)) (omap analyze inputs) =
  sum_list_with h (omap analyze inputs).
Proof.
  intros Hg. induction inputs as [|file inputs IH]; simpl; [reflexivity|].
  destruct (analyze file) as [a|] eqn:E; simpl; [|exact IH].
  rewrite (contribution_analyze _ _ E), Hg. f_equal. exact IH.
Qed.

Lemma sum_list_with_one {A} (l : list A) :
  sum_list_with (fun _ => 1) l = length l.
Proof. induction l as [|x l IH]; simpl; [reflexivity|now rewrite IH]. Qed.

(** C8. In every run of [useCodeAnalyzer] the grand total is, field by
    field, the sum of that field over the per-language entries, and also the
    sum over the per-file entries: the number of entries for [files], the
    sums of [blank], [comment], [code] and [lines] for the others. With no
    input file the grand total is all zero. *)
Theorem C8_grand_total_sums (inputs : list File.t) :
  let r := useCodeAnalyzer inputs in
  total r =
    mkLanguageStats
      (sum_list_with (fun e => ls_files (snd e)) (languages r))
      (sum_list_with (fun e => ls_blank (snd e)) (languages r))
      (sum_list_with (fun e => ls_comment (snd e)) (languages r))
      (sum_list_with (fun e => ls_code (snd e)) (languages r))
      (sum_list_with (fun e => ls_total (snd e)) (languages r))
  /\ total r =
    mkLanguageStats
      (length (files r))
      (sum_list_with blank (files r))
      (sum_list_with comment (files r))
      (sum_list_with code (files r))
      (sum_list_with lines (files r))
  /\ total (useCodeAnalyzer []) = zeroStats.
Proof.
  cbv zeta. rewrite useCodeAnalyzer_aggregate. cbn [total languages files].
  split; [apply grandTotal_fields|split; [|reflexivity]].
  rewrite grandTotal_aggregate.
  rewrite (contributions_of_inputs ls_files (fun _ => 1)) by reflexivity.
  rewrite (contributions_of_inputs ls_blank blank) by reflexivity.
  rewrite (contributions_of_inputs ls_comment comment) by reflexivity.
  rewrite (contributions_of_inputs ls_code code) by reflexivity.
  rewrite (contributions_of_inputs ls_total lines) by reflexivity.
  now rewrite sum_list_with_one.
Qed.

(** C9. Aggregating a permutation of a sequence of per-file entries yields
    the same per-language entries, read by language key, and the same grand
    total as aggregating the sequence itself. *)
Theorem C9_aggregation_order_invariant (analyses permuted : list FileStats) :
  Permutation analyses permuted ->
  sameEntries (aggregate permuted) (aggregate analyses)
  /\ grandTotal (aggregate permuted) = grandTotal (aggregate analyses).
Proof.
  intros Hperm. split.
  - intros k. symmetry.
    apply (fold_accumulate_Permutation analyses permuted Hperm []).
  - rewrite !grandTotal_aggregate.
    f_equal; symmetry; now apply sum_list_with_Permutation_proper.
Qed.

Lemma C9_witness :
  let a := mkFileStats "a.c" (VString "C") 1 0 0 1 in
  let b := mkFileStats "b.py" (VString "Python") 2 1 1 0 in
  Permutation [a; b] [b; a]
  /\ grandTotal (aggregate [b; a]) = grandTotal (aggregate [a; b]).
Proof.
  cbv zeta. split; [apply perm_swap|].
  apply (C9_aggregation_order_invariant
           [mkFileStats "a.c" (VString "C") 1 0 0 1;
            mkFileStats "b.py" (VString "Python") 2 1 1 0]
           [mkFileStats "b.py" (VString "Python") 2 1 1 0;
            mkFileStats "a.c" (VString "C") 1 0 0 1]).
  apply perm_swap.
Defined.

(** The same for the loop over the input files: a permutation of the files
    changes neither the per-language entries nor the grand total. *)
Lemma useCodeAnalyzer_order_invariant (inputs permuted : list File.t) :
  Permutation inputs permuted ->
  sameEntries (languages (useCodeAnalyzer permuted))
              (languages (useCodeAnalyzer inputs))
  /\ total (useCodeAnalyzer permuted) = total (useCodeAnalyzer inputs).
Proof.
  intros Hperm. rewrite !useCodeAnalyzer_aggregate. cbn [languages total].
  assert (Permutation (omap analyze inputs) (omap analyze permuted)) as H
    by now apply omap_Permutation.
  split.
  - intros k. symmetry.
    apply (fold_accumulate_Permutation _ _ H []).
  - rewrite !grandTotal_aggregate.
    f_equal; symmetry; now apply sum_list_with_Permutation_proper.
Qed.

(** * Further properties of the classifier *)

Section TrimFacts.

Lemma trimStart_allWhiteSpace (ws : string) :
  allWhiteSpace ws = true -> trimStart ws = EmptyString.
Proof.
  induction ws as [|a ws IH]; simpl; [reflexivity|].
  destruct (isWhiteSpace a); [exact IH|discriminate].
Qed.

Lemma trimEnd_allWhiteSpace (ws : string) :
  allWhiteSpace ws = true -> trimEnd ws = EmptyString.
Proof.
  induction ws as [|a ws IH]; simpl; [reflexivity|].
  destruct (isWhiteSpace a); [|discriminate].
  intros H. now rewrite (IH H).
Qed.

Lemma trimStart_app_white (ws s : string) :
  allWhiteSpace ws = true -> trimStart (ws ++ s) = trimStart s.
Proof.
  induction ws as [|a ws IH]; [reflexivity|].
  change (String a ws ++ s) with (String a (ws ++ s)). simpl.
  destruct (isWhiteSpace a); [exact IH|discriminate].
Qed.

Lemma trimEnd_app_white (s ws : string) :
  allWhiteSpace ws = true -> trimEnd (s ++ ws) = trimEnd s.
Proof.
  intros H. induction s as [|a s IH].
  - change (trimEnd ws = EmptyString). now apply trimEnd_allWhiteSpace.
  - change (String a s ++ ws) with (String a (s ++ ws)).
    cbn [trimEnd]. now rewrite IH.
Qed.

(** What is left after the leading white space is empty or starts with a
    code unit that is not white space. *)
Lemma trimStart_head (s : string) :
  trimStart s = EmptyString
  \/ exists a t, trimStart s = String a t /\ isWhiteSpace a = false.
Proof.
  induction s as [|a s IH]; simpl; [now left|].
  destruct (isWhiteSpace a) eqn:E; [exact IH|].
  right. now exists a, s.
Qed.

Lemma trimStart_app (s t : string) :
  trimStart (s ++ t) =
  match trimStart s with
  | EmptyString => trimStart t
  | String _ _ => trimStart s ++ t
  end.
Proof.
  induction s as [|a s IH]; [reflexivity|].
  change (String a s ++ t) with (String a (s ++ t)). simpl.
  destruct (isWhiteSpace a); [exact IH|reflexivity].
Qed.

Lemma trim_padded (ws1 line ws2 : string) :
  allWhiteSpace ws1 = true -> allWhiteSpace ws2 = true ->
  trim (ws1 ++ line ++ ws2) = trim line.
Proof.
  intros H1 H2. unfold trim.
  rewrite (trimStart_app_white _ _ H1), trimStart_app.
  destruct (trimStart line) eqn:E.
  - now rewrite (trimStart_allWhiteSpace _ H2).
  - now apply trimEnd_app_white.
Qed.

Lemma trimEnd_idempotent (s : string) : trimEnd (trimEnd s) = trimEnd s.
Proof.
  induction s as [|a s IH]; [reflexivity|].
  cbn [trimEnd]. destruct (trimEnd s) as [|b t] eqn:E.
  - destruct (isWhiteSpace a) eqn:Ea; [reflexivity|].
    simpl. now rewrite Ea.
  - cbn [trimEnd]. cbn [trimEnd] in IH. now rewrite IH.
Qed.

Lemma trimEnd_keeps_head (a : ascii) (t : string) :
  isWhiteSpace a = false -> exists u, trimEnd (String a t) = String a u.
Proof.
  intros Ha. cbn [trimEnd]. destruct (trimEnd t) as [|b u].
  - rewrite Ha. now exists EmptyString.
  - now exists (String b u).
Qed.

Lemma trim_idempotent (s : string) : trim (trim s) = trim s.
Proof.
  unfold trim. destruct (trimStart_head s) as [E|(a & t & E & Ha)].
  - rewrite E. reflexivity.
  - rewrite E. destruct (trimEnd_keeps_head a t Ha) as [u Hu].
    rewrite Hu. cbn [trimStart]. rewrite Ha, <- Hu.
    apply trimEnd_idempotent.
Qed.

End TrimFacts.

(** X1. White space around a line never changes how the line is counted,
    whatever the grammar and the state: the loop sees the trimmed line
    only. This covers indentation and the carriage return left at the end of
    each line of a CRLF file. *)
Theorem scanLine_ignores_padding
  (p : CommentPatterns) (st : ScanState) (ws1 line ws2 : string) :
  allWhiteSpace ws1 = true ->
  allWhiteSpace ws2 = true ->
  scanLine p st (ws1 ++ line ++ ws2) = scanLine p st line
  /\ scanLine p st (trim line) = scanLine p st line.
Proof.
  intros H1 H2. unfold scanLine.
  now rewrite (trim_padded _ _ _ H1 H2), trim_idempotent.
Qed.

Lemma scanLine_ignores_padding_witness :
  scanLine cStyle initialScan
    ("  " ++ "// note" ++ String "013" EmptyString)
  = scanLine cStyle initialScan "// note".
Proof.
  apply (scanLine_ignores_padding cStyle initialScan "  " "// note"
           (String "013" EmptyString)); reflexivity.
Defined.

Section ClassifierComposition.

Variable p : CommentPatterns.

Lemma split_app_separator (c : ascii) (s1 s2 : string) :
  split c (s1 ++ String c s2) = (split c s1 ++ split c s2)%list.
Proof.
  induction s1 as [|a s1 IH].
  - simpl. now rewrite Ascii.eqb_refl.
  - change (String a s1 ++ String c s2) with (String a (s1 ++ String c s2)).
    cbn [split]. rewrite IH. destruct (Ascii.eqb a c); [reflexivity|].
    destruct (split c s1) as [|piece pieces] eqn:E;
      [now apply split_not_nil in E|reflexivity].
Qed.

Lemma scanLines_app (st : ScanState) (l1 l2 : list string) :
  scanLines p st (l1 ++ l2)%list = scanLines p (scanLines p st l1) l2.
Proof. unfold scanLines. apply fold_left_app. Qed.

(** The counters of the entry state are carried along unchanged: only the
    block state of the entry state influences the scan. *)
Lemma scanLine_offset (st : ScanState) (line : string) :
  let r := scanLine p (mkScan 0 0 0 (inBlockComment st)) line in
  scanLine p st line =
  mkScan (blankLines st + blankLines r) (commentLines st + commentLines r)
         (codeLines st + codeLines r) (inBlockComment r).
Proof.
  cbv zeta. destruct (isBlankLine line) eqn:E.
  - rewrite !(scanLine_blank _ _ _ E). simpl. f_equal; lia.
  - rewrite !(scanLine_nonblank _ _ _ E). simpl.
    case_verdict; simpl; f_equal; lia.
Qed.

Lemma scanLines_offset (ls : list string) (st : ScanState) :
  let r := scanLines p (mkScan 0 0 0 (inBlockComment st)) ls in
  scanLines p st ls =
  mkScan (blankLines st + blankLines r) (commentLines st + commentLines r)
         (codeLines st + codeLines r) (inBlockComment r).
Proof.
  cbv zeta. revert st. induction ls as [|line ls IH]; intros st.
  - destruct st. simpl. f_equal; lia.
  - change (scanLines p st (line :: ls))
      with (scanLines p (scanLine p st line) ls).
    change (scanLines p (mkScan 0 0 0 (inBlockComment st)) (line :: ls))
      with (scanLines p
              (scanLine p (mkScan 0 0 0 (inBlockComment st)) line) ls).
    rewrite (IH (scanLine p st line)).
    rewrite (IH (scanLine p (mkScan 0 0 0 (inBlockComment st)) line)).
    rewrite (scanLine_offset st line). simpl. f_equal; lia.
Qed.

Lemma length_filter_Permutation {A} (f : A -> bool) (l l' : list A) :
  Permutation l l' ->
  length (List.filter f l) = length (List.filter f l').
Proof.
  induction 1 as [|x l l' _ IH|x y l|l l' l'' _ IH1 _ IH2]; simpl.
  - reflexivity.
  - destruct (f x); simpl; now rewrite IH.
  - destruct (f x), (f y); reflexivity.
  - now rewrite IH1.
Qed.

(** Without block markers every line is classified on its own. *)
Lemma scanLines_linewise (ls : list string) (st : ScanState) :
  blockMarkers p = None ->
  scanLines p st ls =
  mkScan (blankLines st + length (List.filter isBlankLine ls))
         (commentLines st + length (List.filter (isSingleComment p) ls))
         (codeLines st + length (List.filter (isPlainCode p) ls))
         (inBlockComment st).
Proof.
  intros Hm. revert st. induction ls as [|line ls IH]; intros st.
  - destruct st. simpl. f_equal; lia.
  - change (scanLines p st (line :: ls))
      with (scanLines p (scanLine p st line) ls).
    rewrite IH. cbn [List.filter]. unfold isSingleComment, isPlainCode.
    destruct (isBlankLine line) eqn:E.
    + rewrite (scanLine_blank _ _ _ E). simpl. f_equal; lia.
    + rewrite (scanLine_nonblank _ _ _ E). unfold blockStep. rewrite Hm.
      simpl. destruct (singleStep p (trim line)); simpl; f_equal; lia.
Qed.

End ClassifierComposition.

(** X2. Joining two contents with a newline joins their lines: the line
    count and the blank count of the whole are the sums of those of the
    parts, and when the first part ends outside a block comment the comment
    and code counts add up as well. *)
Theorem analyzeFileContent_concatenation
  (c1 c2 filename : string) (language : value) :
  let a1 := analyzeFileContent c1 filename language in
  let a2 := analyzeFileContent c2 filename language in
  let a := analyzeFileContent (c1 ++ nl ++ c2) filename language in
  lines a = lines a1 + lines a2
  /\ blank a = blank a1 + blank a2
  /\ (inBlockComment
        (scanLines (getCommentPatterns language) initialScan
           (split newline c1)) = false ->
      comment a = comment a1 + comment a2 /\ code a = code a1 + code a2).
Proof.
  cbv zeta. unfold analyzeFileContent. cbn [lines blank comment code].
  change (c1 ++ nl ++ c2) with (c1 ++ String newline c2).
  rewrite split_app_separator, scanLines_app, length_app.
  set (p := getCommentPatterns language).
  set (s1 := scanLines p initialScan (split newline c1)).
  split; [reflexivity|].
  pose proof (scanLines_offset p (split newline c2) s1) as H.
  cbv zeta in H. rewrite H. cbn [blankLines commentLines codeLines].
  split.
  - f_equal.
    pose proof (scanLines_blank_count p (split newline c2)
                  (mkScan 0 0 0 (inBlockComment s1))) as [H1 _].
    pose proof (scanLines_blank_count p (split newline c2) initialScan)
      as [H2 _].
    rewrite H1, H2. reflexivity.
  - intros ->. split; reflexivity.
Qed.

Lemma analyzeFileContent_concatenation_witness :
  comment (analyzeFileContent (exampleJs ++ nl ++ exampleCpp) "a.js"
             (VString "JavaScript")) = 1 + 3.
Proof.
  pose proof (analyzeFileContent_concatenation exampleJs exampleCpp "a.js"
                (VString "JavaScript")) as H.
  cbv zeta in H. destruct H as (_ & _ & H).
  destruct (H eq_refl) as [Hc _]. exact Hc.
Defined.

(** X3. Under a grammar without a block-marker pair (Shell, YAML, Sass,
    Batch and the default grammar) every line is classified on its own: the
    comment counter counts the non-blank lines the single-line rule accepts,
    the code counter the other non-blank lines, the block state never
    changes, and reordering the lines does not change the result. *)
Theorem no_block_markers_linewise
  (language : value) (st : ScanState) (ls ls' : list string) :
  blockMarkers (getCommentPatterns language) = None ->
  Permutation ls ls' ->
  let p := getCommentPatterns language in
  scanLines p st ls =
    mkScan (blankLines st + length (List.filter isBlankLine ls))
           (commentLines st + length (List.filter (isSingleComment p) ls))
           (codeLines st + length (List.filter (isPlainCode p) ls))
           (inBlockComment st)
  /\ scanLines p st ls' = scanLines p st ls.
Proof.
  intros Hm Hperm. cbv zeta.
  rewrite !(scanLines_linewise _ _ _ Hm). split; [reflexivity|].
  now rewrite !(length_filter_Permutation _ _ _ Hperm).
Qed.

Lemma no_block_markers_linewise_witness :
  scanLines (getCommentPatterns (VString "Shell")) initialScan
    ["echo hi"; "# note"]
  = scanLines (getCommentPatterns (VString "Shell")) initialScan
    ["# note"; "echo hi"].
Proof.
  apply (no_block_markers_linewise (VString "Shell") initialScan
           ["# note"; "echo hi"] ["echo hi"; "# note"]).
  - reflexivity.
  - apply perm_swap.
Defined.

(** X4. A block comment that is opened on one line and closed on a later
    one: the opening line, the closing line and every non-blank line between
    them are comment lines, none is a code line, and the block is closed
    after the closing line. *)
Theorem closed_block_is_all_comment
  (p : CommentPatterns) (bs be : string) (st : ScanState)
  (first last : string) (middle : list string) :
  blockMarkers p = Some (bs, be) ->
  inBlockComment st = false ->
  isBlankLine first = false -> includes (trim first) bs = true ->
  includes (trim first) be = false ->
  Forall (fun l => includes (trim l) be = false) middle ->
  isBlankLine last = false -> includes (trim last) be = true ->
  scanLines p st (first :: middle ++ [last]) =
  mkScan (blankLines st + length (List.filter isBlankLine middle))
         (commentLines st + 2
          + length (List.filter (fun l => negb (isBlankLine l)) middle))
         (codeLines st) false.
Proof.
  intros Hm Hout Hf Hfs Hfe Hmid Hl Hle.
  change (scanLines p st (first :: middle ++ [last]))
    with (scanLines p (scanLine p st first) (middle ++ [last])).
  rewrite scanLines_app.
  assert (scanLine p st first =
          mkScan (blankLines st) (S (commentLines st)) (codeLines st) true)
    as ->.
  { rewrite (scanLine_nonblank _ _ _ Hf). unfold blockStep.
    now rewrite Hm, Hout, Hfs, Hfe. }
  rewrite (scanLines_inside_block p bs be middle)
    by (assumption || reflexivity).
  cbn [scanLines fold_left].
  rewrite (scanLine_nonblank _ _ _ Hl). unfold blockStep.
  cbn [inBlockComment]. rewrite Hm, Hle. simpl. f_equal; lia.
Qed.

Lemma closed_block_is_all_comment_witness :
  scanLines cStyle initialScan ["/* start"; "still comment"; "end */"]
  = mkScan 0 3 0 false.
Proof.
  apply (closed_block_is_all_comment cStyle "/*" "*/" initialScan
           "/* start" "end */" ["still comment"]);
    try reflexivity.
  repeat constructor.
Defined.

Lemma split_allWhiteSpace (c : ascii) (s : string) :
  allWhiteSpace s = true ->
  List.Forall (fun l => allWhiteSpace l = true) (split c s).
Proof.
  induction s as [|a s IH]; simpl.
  - intros _. now constructor.
  - destruct (isWhiteSpace a) eqn:Ea; [|discriminate]. simpl. intros H.
    specialize (IH H). destruct (Ascii.eqb a c).
    + now constructor.
    + destruct (split c s) as [|piece pieces]; constructor;
        try (simpl; rewrite Ea); try now constructor.
      * simpl. now inversion IH.
      * now inversion IH.
Qed.

Lemma filter_all {A} (f : A -> bool) (l : list A) :
  List.Forall (fun x => f x = true) l -> List.filter f l = l.
Proof.
  induction 1 as [|x l Hx _ IH]; simpl; [reflexivity|].
  now rewrite Hx, IH.
Qed.

(** X5. A content made of white space only, the empty content included, has
    no comment and no code line: all its lines are blank, and there is at
    least one. *)
Theorem whitespace_only_content
  (content filename : string) (language : value) :
  allWhiteSpace content = true ->
  let a := analyzeFileContent content filename language in
  blank a = lines a /\ comment a = 0 /\ code a = 0 /\ 1 <= lines a.
Proof.
  intros Hw. cbv zeta.
  pose proof (scanLines_sum (getCommentPatterns language)
                (split newline content) initialScan) as Hsum.
  pose proof (split_length newline content) as Hlen.
  cbv zeta in Hsum. simpl in Hsum.
  assert (blank (analyzeFileContent content filename language)
          = lines (analyzeFileContent content filename language)) as Hb.
  { unfold analyzeFileContent. cbn [blank lines].
    pose proof (scanLines_blank_count (getCommentPatterns language)
                  (split newline content) initialScan) as [H1 _].
    rewrite H1. simpl. f_equal. apply filter_all.
    eapply List.Forall_impl; [|exact (split_allWhiteSpace _ _ Hw)].
    intros l Hl. unfold isBlankLine, trim.
    now rewrite (trimStart_allWhiteSpace _ Hl). }
  revert Hb. unfold analyzeFileContent. cbn [blank lines comment code].
  lia.
Qed.

Lemma whitespace_only_content_witness :
  blank (analyzeFileContent (" " ++ nl ++ nl) "a.c" (VString "C")) = 3.
Proof.
  pose proof (whitespace_only_content (" " ++ nl ++ nl) "a.c" (VString "C")
                eq_refl) as H.
  cbv zeta in H. destruct H as [H _]. exact H.
Defined.

(** * Further properties of the resolver *)

Lemma lowerCaseUnit_idempotent (a : ascii) :
  lowerCaseUnit (lowerCaseUnit a) = lowerCaseUnit a.
Proof.
  destruct a as [[] [] [] [] [] [] [] []]; reflexivity.
Qed.

Lemma toLowerCase_idempotent (s : string) :
  toLowerCase (toLowerCase s) = toLowerCase s.
Proof.
  induction s as [|a s IH]; simpl; [reflexivity|].
  now rewrite lowerCaseUnit_idempotent, IH.
Qed.

(** The extension is always the lower-cased last piece of the split. *)
Lemma extensionOf_lower (filename : string) :
  exists piece, last (split "." filename) = Some piece
                /\ extensionOf filename = toLowerCase piece.
Proof.
  unfold extensionOf, pop.
  destruct (last (split "." filename)) as [piece|] eqn:E.
  - now exists piece.
  - apply last_None in E. now apply split_not_nil in E.
Qed.

(** Among the members of the prototype only two have a name without a
    capital letter, so only these can be met by a lower-cased extension. *)
Lemma inherited_lower (s : string) :
  inherited (toLowerCase s) = true ->
  toLowerCase s = "constructor" \/ toLowerCase s = "__proto__".
Proof.
  intros H. unfold inherited in H. apply bool_decide_eq_true in H.
  pose proof (toLowerCase_idempotent s) as Hid.
  apply list_elem_of_In in H. unfold objectPrototypeKeys in H. simpl in H.
  destruct H as [H|[H|H]]; [left; now symmetry|right; now symmetry|].
  exfalso.
  repeat (destruct H as [H|H];
          [rewrite <- H in Hid; vm_compute in Hid; discriminate Hid|]).
  exact H.
Qed.

(** X6. The resolver looks at nothing but the text after the last dot, and
    ignores its case: two names whose last-dot suffixes agree up to case
    resolve to the same language, whatever precedes the dot. *)
Theorem resolver_depends_on_extension_only (pre pre' suf suf' : string) :
  occurrences "." suf = 0 ->
  occurrences "." suf' = 0 ->
  toLowerCase suf = toLowerCase suf' ->
  getLanguageFromExtension (pre ++ "." ++ suf)
  = getLanguageFromExtension (pre' ++ "." ++ suf').
Proof.
  intros H H' Heq. unfold getLanguageFromExtension.
  change (pre ++ "." ++ suf) with (pre ++ String "." suf).
  change (pre' ++ "." ++ suf') with (pre' ++ String "." suf').
  now rewrite !extensionOf_dotted, Heq by assumption.
Qed.

Lemma resolver_depends_on_extension_only_witness :
  getLanguageFromExtension ("src/App" ++ "." ++ "TSX")
  = getLanguageFromExtension ("x.y" ++ "." ++ "tsx").
Proof.
  apply (resolver_depends_on_extension_only "src/App" "x.y" "TSX" "tsx");
    reflexivity.
Defined.

(** X7. Whatever the file name, the resolver returns a label of its table,
    the label [Unknown], or one of the two built-in objects reachable through
    a lower-case extension; and the grammar then chosen for the file is
    either an entry of the grammar table or the default grammar, never the
    marker-less reading of a built-in object. *)
Theorem resolver_range (filename : string) :
  let language := getLanguageFromExtension filename in
  ((exists ext label,
       getOwn languageMap ext = Some label /\ language = VString label)
   \/ language = VString "Unknown"
   \/ language = VBuiltin "constructor"
   \/ language = VBuiltin "__proto__")
  /\ (getCommentPatterns language = defaultPatterns
      \/ getOwn patterns (toPropertyKey language)
         = Some (getCommentPatterns language)).
Proof.
  cbv zeta. split.
  - unfold getLanguageFromExtension. cbv zeta.
    destruct (extensionOf_lower filename) as (piece & _ & ->).
    destruct (getOwn languageMap (toLowerCase piece)) as [label|] eqn:E.
    + left. now exists (toLowerCase piece), label.
    + destruct (inherited (toLowerCase piece)) eqn:Hi.
      * destruct (inherited_lower _ Hi) as [-> | ->]; tauto.
      * tauto.
  - unfold getCommentPatterns. cbv zeta.
    rewrite resolver_key_not_inherited.
    destruct (getOwn patterns _); [now right|now left].
Qed.

(** X8. Every extension the file picker offers is a key of the resolver
    table, so a picked file never resolves to [Unknown]; conversely every
    key of the table is offered except [cc], [cxx] and [htm]. *)
Theorem accepted_extensions_are_known (stem ext : string) :
  In ext acceptedExtensions ->
  (exists label,
      getLanguageFromExtension (stem ++ ext) = VString label
      /\ label <> "Unknown"
      /\ In (ext, label)
           (map (fun e => (String "." (fst e), snd e)) languageMap))
  /\ (forall key label,
        getOwn languageMap key = Some label ->
        In (String "." key) acceptedExtensions
        \/ In key ["cc"; "cxx"; "htm"]).
Proof.
  intros Hin. split.
  - unfold getLanguageFromExtension.
    vm_compute in Hin.
    repeat (destruct Hin as [<-|Hin];
            [rewrite extensionOf_dotted by reflexivity;
             eexists; split; [reflexivity|split;
               [discriminate|vm_compute; tauto]]|]).
    contradiction.
  - intros key label H. apply getOwn_In in H.
    vm_compute in H.
    repeat (destruct H as [[= <- <-]|H]; [vm_compute; tauto|]).
    contradiction.
Qed.

Lemma accepted_extensions_are_known_witness :
  exists label,
    getLanguageFromExtension ("lib/main" ++ ".rs") = VString label
    /\ label <> "Unknown".
Proof.
  assert (In ".rs" acceptedExtensions) as Hin by (vm_compute; tauto).
  destruct (accepted_extensions_are_known "lib/main" ".rs" Hin)
    as [(label & H1 & H2 & _) _].
  now exists label.
Defined.

(** * Further properties of the aggregation *)

Section EntryInvariants.

Context {V : Type}.

Lemma alterOwn_keys (f : V -> V) (key : string) (obj : list (string * V)) :
  map fst (alterOwn f key obj) = map fst obj.
Proof.
  induction obj as [|[k v] obj IH]; simpl; [reflexivity|].
  destruct (String.eqb k key); simpl; [reflexivity|now rewrite IH].
Qed.

Lemma alterOwn_Forall (P : V -> Prop) (f : V -> V) (key : string)
  (obj : list (string * V)) :
  (forall v, P v -> P (f v)) ->
  List.Forall (fun e => P (snd e)) obj ->
  List.Forall (fun e => P (snd e)) (alterOwn f key obj).
Proof.
  intros Hf. induction 1 as [|[k v] obj Hv Hobj IH]; simpl.
  - constructor.
  - destruct (String.eqb k key); constructor; simpl in *; auto.
Qed.

Lemma getOwn_None_keys (obj : list (string * V)) (key : string) :
  getOwn obj key = None -> ~ In key (map fst obj).
Proof.
  induction obj as [|[k v] obj IH]; simpl; [tauto|].
  destruct (String.eqb k key) eqn:E; [discriminate|].
  intros H [Hk|Hin]; [|now apply IH].
  subst k. now rewrite String.eqb_refl in E.
Qed.

Lemma alterOwn_snoc_fresh (f : V -> V) (key : string) (v : V)
  (obj : list (string * V)) :
  getOwn obj key = None ->
  alterOwn f key (obj ++ [(key, v)])%list = (obj ++ [(key, f v)])%list.
Proof.
  induction obj as [|[k w] obj IH]; simpl.
  - intros _. now rewrite String.eqb_refl.
  - destruct (String.eqb k key); [discriminate|].
    intros H. now rewrite IH.
Qed.

End EntryInvariants.

(** One step of the loop, by cases. *)
Lemma accumulate_cases (ls : list (string * LanguageStats)) (a : FileStats) :
  let key := toPropertyKey (language a) in
  (exists stats, getOwn ls key = Some stats
                 /\ accumulate ls a = alterOwn (addFile a) key ls)
  \/ (getOwn ls key = None /\ inherited key = true /\ accumulate ls a = ls)
  \/ (getOwn ls key = None /\ inherited key = false
      /\ accumulate ls a = (ls ++ [(key, addFile a zeroStats)])%list).
Proof.
  cbv zeta. unfold accumulate. cbv zeta.
  destruct (getOwn ls (toPropertyKey (language a))) as [stats|] eqn:G.
  - left. now exists stats.
  - right. destruct (inherited (toPropertyKey (language a))).
    + now left.
    + right. now rewrite alterOwn_snoc_fresh.
Qed.

(** A property of the entries that holds for a fresh entry after its first
    file and is kept by every further file is an invariant of the loop. *)
Lemma accumulate_Forall (P : LanguageStats -> Prop)
  (ls : list (string * LanguageStats)) (a : FileStats) :
  (forall stats, P stats -> P (addFile a stats)) ->
  P (addFile a zeroStats) ->
  List.Forall (fun e => P (snd e)) ls ->
  List.Forall (fun e => P (snd e)) (accumulate ls a).
Proof.
  intros Hstep Hfirst Hls.
  destruct (accumulate_cases ls a)
    as [(stats & _ & ->)|[(_ & _ & ->)|(_ & _ & ->)]].
  - now apply alterOwn_Forall.
  - assumption.
  - apply List.Forall_app. split; [assumption|]. now repeat constructor.
Qed.

Lemma fold_accumulate_Forall (P : LanguageStats -> Prop)
  (analyses : list FileStats) (ls : list (string * LanguageStats)) :
  List.Forall (fun a => (forall stats, P stats -> P (addFile a stats))
                        /\ P (addFile a zeroStats)) analyses ->
  List.Forall (fun e => P (snd e)) ls ->
  List.Forall (fun e => P (snd e)) (fold_left accumulate analyses ls).
Proof.
  intros Hall. revert ls.
  induction Hall as [|a analyses [Hstep Hfirst] _ IH]; intros ls Hls.
  - exact Hls.
  - simpl. apply IH. now apply accumulate_Forall.
Qed.

Lemma accumulate_keys_NoDup (ls : list (string * LanguageStats))
  (a : FileStats) :
  List.NoDup (map fst ls) -> List.NoDup (map fst (accumulate ls a)).
Proof.
  intros Hnd.
  destruct (accumulate_cases ls a)
    as [(stats & _ & ->)|[(_ & _ & ->)|(Hnone & _ & ->)]].
  - now rewrite alterOwn_keys.
  - assumption.
  - rewrite map_app. simpl.
    apply List.NoDup_app; [assumption| |].
    + repeat constructor. simpl. tauto.
    + intros k Hk [<-|[]]. now apply getOwn_None_keys in Hnone.
Qed.

Lemma accumulate_length (ls : list (string * LanguageStats)) (a : FileStats) :
  length (accumulate ls a) <= S (length ls).
Proof.
  destruct (accumulate_cases ls a)
    as [(stats & _ & ->)|[(_ & _ & ->)|(_ & _ & ->)]].
  - rewrite <- (length_map fst), alterOwn_keys, length_map. lia.
  - lia.
  - rewrite length_app. simpl. lia.
Qed.

Lemma fold_accumulate_shape (analyses : list FileStats)
  (ls : list (string * LanguageStats)) :
  List.NoDup (map fst ls) ->
  List.NoDup (map fst (fold_left accumulate analyses ls))
  /\ length (fold_left accumulate analyses ls)
     <= length ls + length analyses.
Proof.
  revert ls. induction analyses as [|a analyses IH]; intros ls Hnd; simpl.
  - split; [assumption|lia].
  - destruct (IH _ (accumulate_keys_NoDup ls a Hnd)) as [H1 H2].
    split; [assumption|]. pose proof (accumulate_length ls a). lia.
Qed.

Lemma shadowFree_fold (analyses : list FileStats)
  (ls : list (string * LanguageStats)) :
  shadowFree ls -> shadowFree (fold_left accumulate analyses ls).
Proof.
  revert ls. induction analyses as [|a analyses IH]; intros ls H.
  - exact H.
  - simpl. apply IH. now apply shadowFree_accumulate.
Qed.

(** The entry read under a key after the loop: the entry before the loop
    plus the statistics of the files filed under that key. *)
Lemma getOwn_fold_accumulate (analyses : list FileStats)
  (ls : list (string * LanguageStats)) (key : string) :
  inherited key = false ->
  getOwn (fold_left accumulate analyses ls) key =
  match List.filter (hasKey key) analyses with
  | [] => getOwn ls key
  | group =>
      Some (addStats (from_option id zeroStats (getOwn ls key))
                     (statsOf group))
  end.
Proof.
  intros Hkey. revert ls.
  induction analyses as [|a analyses IH]; intros ls; [reflexivity|].
  cbn [fold_left List.filter]. rewrite IH, getOwn_accumulate.
  change (hasKey key a) with (String.eqb (toPropertyKey (language a)) key).
  destruct (String.eqb (toPropertyKey (language a)) key) eqn:E.
  - rewrite Hkey.
    assert (from_option id zeroStats
              (match getOwn ls key with
               | Some stats => Some (addFile a stats)
               | None => Some (addFile a zeroStats)
               end)
            = addFile a (from_option id zeroStats (getOwn ls key))) as Hs
      by now destruct (getOwn ls key).
    destruct (List.filter (hasKey key) analyses) as [|b group].
    + destruct (getOwn ls key) as [stats|]; simpl; f_equal;
        unfold addStats, addFile, statsOf; simpl; f_equal; lia.
    + rewrite Hs. f_equal.
      unfold addStats, addFile, statsOf. simpl. f_equal; lia.
  - reflexivity.
Qed.

Lemma filter_none {A} (f : A -> bool) (l : list A) :
  List.Forall (fun x => f x = false) l -> List.filter f l = [].
Proof.
  induction 1 as [|x l Hx _ IH]; simpl; [reflexivity|]. now rewrite Hx.
Qed.

Lemma omap_analyze_cons (file : File.t) (inputs : list File.t) :
  omap analyze (file :: inputs) =
  match analyze file with
  | Some a => a :: omap analyze inputs
  | None => omap analyze inputs
  end.
Proof. reflexivity. Qed.

Lemma analyze_Forall (P : FileStats -> Prop) (inputs : list File.t) :
  (forall file a, analyze file = Some a -> P a) ->
  List.Forall P (omap analyze inputs).
Proof.
  intros H. induction inputs as [|file inputs IH]; simpl; [constructor|].
  destruct (analyze file) as [a|] eqn:E; [|exact IH].
  constructor; [now apply (H file)|exact IH].
Qed.

Lemma analyze_key_not_inherited (file : File.t) (a : FileStats) :
  analyze file = Some a ->
  inherited (toPropertyKey (language a)) = false.
Proof.
  unfold analyze. destruct (File.text file); [|discriminate].
  intros [= <-]. unfold analyzeFileContent. cbn [language].
  apply resolver_key_not_inherited.
Qed.

Lemma analyze_balanced (file : File.t) (a : FileStats) :
  analyze file = Some a -> lines a = blank a + comment a + code a.
Proof.
  unfold analyze. destruct (File.text file) as [content|]; [|discriminate].
  intros [= <-]. unfold analyzeFileContent. cbn [lines blank comment code].
  pose proof (scanLines_sum
                (getCommentPatterns (getLanguageFromExtension (File.name file)))
                (split newline content) initialScan) as H.
  cbv zeta in H. simpl in H. lia.
Qed.

(** X9. In the report of [useCodeAnalyzer] the entry under a language key is
    there exactly when some per-file entry of the report is filed under that
    key, and it holds the number of those files and the sums of their blank,
    comment, code and line counts. *)
Theorem language_entry_sums_its_files (inputs : list File.t) (key : string) :
  let r := useCodeAnalyzer inputs in
  getOwn (languages r) key =
  match List.filter (hasKey key) (files r) with
  | [] => None
  | group => Some (statsOf group)
  end.
Proof.
  cbv zeta. rewrite useCodeAnalyzer_aggregate. cbn [languages files].
  destruct (inherited key) eqn:Hkey.
  - pose proof (shadowFree_fold (omap analyze inputs) [] shadowFree_nil)
      as Hfree.
    unfold aggregate. rewrite (Hfree key Hkey).
    rewrite filter_none; [reflexivity|].
    apply analyze_Forall. intros file a Ha. unfold hasKey.
    destruct (String.eqb _ key) eqn:E; [|reflexivity].
    apply String.eqb_eq in E.
    pose proof (analyze_key_not_inherited _ _ Ha). congruence.
  - unfold aggregate. rewrite (getOwn_fold_accumulate _ _ _ Hkey).
    destruct (List.filter (hasKey key) (omap analyze inputs));
      reflexivity.
Qed.

(** X10. The report has one entry per language key, no key twice; there are
    at most as many entries as per-file entries, which are at most as many
    as input files; and every entry counts at least one file. *)
Theorem languages_shape (inputs : list File.t) :
  let r := useCodeAnalyzer inputs in
  List.NoDup (map fst (languages r))
  /\ length (languages r) <= length (files r)
  /\ length (files r) <= length inputs
  /\ List.Forall (fun e => 1 <= ls_files (snd e)) (languages r).
Proof.
  cbv zeta. rewrite useCodeAnalyzer_aggregate. cbn [languages files].
  unfold aggregate.
  destruct (fold_accumulate_shape (omap analyze inputs) [])
    as [Hnd Hlen]; [constructor|].
  split; [assumption|split; [exact Hlen|split]].
  - clear. induction inputs as [|file inputs IH]; [simpl; lia|].
    change (omap analyze (file :: inputs))
      with (match analyze file with
            | Some a => a :: omap analyze inputs
            | None => omap analyze inputs
            end).
    destruct (analyze file); simpl length; lia.
  - apply (fold_accumulate_Forall (fun stats => 1 <= ls_files stats));
      [|constructor].
    apply List.Forall_forall. intros a _. split.
    + intros stats _. simpl. lia.
    + simpl. lia.
Qed.

Lemma balanced_sums (entries : list (string * LanguageStats)) :
  List.Forall (fun e => balanced (snd e)) entries ->
  sum_list_with (fun e => ls_total (snd e)) entries =
  sum_list_with (fun e => ls_blank (snd e)) entries
  + sum_list_with (fun e => ls_comment (snd e)) entries
  + sum_list_with (fun e => ls_code (snd e)) entries.
Proof.
  induction 1 as [|e entries He _ IH]; simpl; [reflexivity|].
  unfold balanced in He. lia.
Qed.

(** X11. The invariant of the per-file entries carries over to the report:
    in every per-language entry, and in the grand total, the total line
    count is the sum of the blank, comment and code counts. *)
Theorem report_is_balanced (inputs : list File.t) :
  let r := useCodeAnalyzer inputs in
  List.Forall (fun e => balanced (snd e)) (languages r)
  /\ balanced (total r)
  /\ List.Forall (fun a => lines a = blank a + comment a + code a) (files r).
Proof.
  cbv zeta. rewrite useCodeAnalyzer_aggregate. cbn [languages total files].
  assert (List.Forall (fun a => lines a = blank a + comment a + code a)
            (omap analyze inputs)) as Hfiles
    by (apply analyze_Forall; intros file a; apply analyze_balanced).
  assert (List.Forall (fun e => balanced (snd e))
            (aggregate (omap analyze inputs))) as Hentries.
  { unfold aggregate. apply fold_accumulate_Forall; [|constructor].
    eapply List.Forall_impl; [|exact Hfiles].
    intros a Ha. cbv beta in Ha. unfold balanced. split.
    - intros stats Hs. simpl. lia.
    - simpl. lia. }
  split; [assumption|split; [|assumption]].
  rewrite grandTotal_fields. unfold balanced. simpl.
  now apply balanced_sums.
Qed.

(** X12. A file whose text cannot be read is skipped and the others are
    analyzed as if it were not there: the report is the one of the remaining
    files, the per-file entries are those of the readable files in input
    order, and a run in which no file can be read gives the empty report. *)
Theorem unreadable_file_is_skipped
  (before after : list File.t) (bad : File.t) :
  File.text bad = None ->
  useCodeAnalyzer (before ++ bad :: after)%list = useCodeAnalyzer (before ++ after)%list
  /\ map name (files (useCodeAnalyzer (before ++ bad :: after)%list))
     = map File.name (List.filter readable (before ++ after)%list)
  /\ (List.Forall (fun f => File.text f = None) (before ++ after)%list ->
      useCodeAnalyzer (before ++ bad :: after)%list = mkResult [] zeroStats []).
Proof.
  intros Hbad.
  assert (omap analyze (before ++ bad :: after)%list
          = omap analyze (before ++ after)%list) as Hskip.
  { rewrite !omap_app. f_equal. simpl. unfold analyze at 1.
    now rewrite Hbad. }
  rewrite !useCodeAnalyzer_aggregate, Hskip. cbn [files].
  split; [reflexivity|split].
  - generalize (before ++ after)%list. clear. intros l.
    induction l as [|file l IH]; [reflexivity|].
    rewrite omap_analyze_cons. cbn [List.filter].
    unfold analyze at 1, readable at 1.
    destruct (File.text file); [|exact IH].
    cbn [map]. now rewrite IH.
  - intros Hall.
    assert (omap analyze (before ++ after)%list = []) as ->; [|reflexivity].
    clear Hskip. induction Hall as [|file l Hf _ IH]; [reflexivity|].
    rewrite omap_analyze_cons. unfold analyze at 1. rewrite Hf. exact IH.
Qed.

Lemma unreadable_file_is_skipped_witness :
  useCodeAnalyzer [File.mk "a.c" (Some "x"); File.mk "b.c" None]
  = useCodeAnalyzer [File.mk "a.c" (Some "x")].
Proof.
  apply (unreadable_file_is_skipped [File.mk "a.c" (Some "x")] []
           (File.mk "b.c" None)).
  reflexivity.
Defined.

(** X13. Analyzing two batches of files in one run: the per-file entries are
    those of the first batch followed by those of the second, and the grand
    total is the field-wise sum of the grand totals of the two batches. *)
Theorem batches_add_up (batch1 batch2 : list File.t) :
  files (useCodeAnalyzer (batch1 ++ batch2)%list)
  = (files (useCodeAnalyzer batch1) ++ files (useCodeAnalyzer batch2))%list
  /\ total (useCodeAnalyzer (batch1 ++ batch2)%list)
     = addStats (total (useCodeAnalyzer batch1))
                (total (useCodeAnalyzer batch2)).
Proof.
  rewrite !useCodeAnalyzer_aggregate. cbn [files total].
  rewrite omap_app. split; [reflexivity|].
  rewrite !grandTotal_aggregate, !sum_list_with_app. reflexivity.
Qed.

(** * Properties of the presentation and of the file selection *)

Section SortDesc.

Context {A : Type} (key : A -> nat).

Lemma insertDesc_Permutation (x : A) (l : list A) :
  Permutation (insertDesc key x l) (x :: l).
Proof.
  induction l as [|y l IH]; simpl; [reflexivity|].
  destruct (key y <=? key x)%nat; [reflexivity|].
  rewrite IH. apply perm_swap.
Qed.

Lemma sortDesc_Permutation (l : list A) : Permutation (sortDesc key l) l.
Proof.
  induction l as [|x l IH]; simpl; [reflexivity|].
  rewrite insertDesc_Permutation. now constructor.
Qed.

Lemma insertDesc_Forall (P : A -> Prop) (x : A) (l : list A) :
  P x -> List.Forall P l -> List.Forall P (insertDesc key x l).
Proof.
  intros Hx. induction 1 as [|y l Hy Hl IH]; simpl.
  - now repeat constructor.
  - destruct (key y <=? key x)%nat; repeat constructor; assumption.
Qed.

Lemma insertDesc_sorted (x : A) (l : list A) :
  StronglySorted (byDecreasing key) l -> StronglySorted (byDecreasing key) (insertDesc key x l).
Proof.
  induction 1 as [|y l Hs IH Hy]; simpl.
  - repeat constructor.
  - destruct (key y <=? key x)%nat eqn:E.
    + apply Nat.leb_le in E. constructor; [now constructor|].
      constructor; [exact E|].
      eapply List.Forall_impl; [|exact Hy]. unfold byDecreasing. intros z Hz. lia.
    + apply Nat.leb_gt in E. constructor; [exact IH|].
      apply insertDesc_Forall; [unfold byDecreasing; lia|exact Hy].
Qed.

Lemma sortDesc_sorted (l : list A) : StronglySorted (byDecreasing key) (sortDesc key l).
Proof.
  induction l as [|x l IH]; simpl; [constructor|].
  now apply insertDesc_sorted.
Qed.

(** Stability: the elements of one key value keep their order. *)
Lemma insertDesc_stable (k : nat) (x : A) (l : list A) :
  List.filter (fun y => key y =? k)%nat (insertDesc key x l) =
  List.filter (fun y => key y =? k)%nat (x :: l).
Proof.
  induction l as [|y l IH]; [reflexivity|].
  cbn [insertDesc]. destruct (key y <=? key x)%nat eqn:E; [reflexivity|].
  apply Nat.leb_gt in E. cbn [List.filter] in *. rewrite IH.
  destruct (key x =? k)%nat eqn:Ex, (key y =? k)%nat eqn:Ey; try reflexivity.
  apply Nat.eqb_eq in Ex, Ey. lia.
Qed.

Lemma sortDesc_stable (k : nat) (l : list A) :
  List.filter (fun y => key y =? k)%nat (sortDesc key l) =
  List.filter (fun y => key y =? k)%nat l.
Proof.
  induction l as [|x l IH]; [reflexivity|].
  cbn [sortDesc fold_right]. rewrite insertDesc_stable.
  cbn [List.filter]. fold (sortDesc key l). now rewrite IH.
Qed.

(** A list already in decreasing order is left as it is. *)
Lemma sortDesc_fixed (l : list A) :
  StronglySorted (byDecreasing key) l -> sortDesc key l = l.
Proof.
  induction 1 as [|x l Hs IH Hx]; [reflexivity|].
  cbn [sortDesc fold_right]. fold (sortDesc key l). rewrite IH.
  destruct l as [|y l]; [reflexivity|]. simpl.
  inversion Hx as [|? ? Hy _]; subst. unfold byDecreasing in Hy.
  apply Nat.leb_le in Hy. now rewrite Hy.
Qed.

(** In a list in decreasing order the first [n] elements dominate the
    others. *)
Lemma sorted_take_drop (n : nat) (l : list A) (x y : A) :
  StronglySorted (byDecreasing key) l ->
  In x (take n l) -> In y (drop n l) -> key y <= key x.
Proof.
  intros Hs. revert n. induction Hs as [|z l Hs IH Hz]; intros n.
  - destruct n; simpl; tauto.
  - destruct n as [|n]; simpl; [tauto|].
    intros [->|Hx] Hy.
    + assert (In y l) as Hin.
      { rewrite <- (take_drop n l). apply List.in_or_app. now right. }
      exact (proj1 (List.Forall_forall _ _) Hz y Hin).
    + now apply (IH n).
Qed.

End SortDesc.

(** X14. The language table lists every language of the report exactly
    once, in decreasing order of code lines; languages with the same number
    of code lines keep the order in which the report holds them. *)
Theorem languageData_sorted_stable
  (percentage : nat -> nat -> string) (result : AnalysisResult) (k : nat) :
  let rows := languageData percentage result in
  Permutation rows (map (languageDatum percentage result) (languages result))
  /\ length rows = length (languages result)
  /\ StronglySorted (byDecreasing ld_code) rows
  /\ map ld_name (List.filter (fun d => ld_code d =? k)%nat rows)
     = map fst (List.filter (fun e => ls_code (snd e) =? k)%nat
                  (languages result)).
Proof.
  cbv zeta. unfold languageData.
  pose proof (sortDesc_Permutation ld_code
                (map (languageDatum percentage result) (languages result)))
    as Hperm.
  split; [exact Hperm|split; [|split]].
  - now rewrite (Permutation_length Hperm), length_map.
  - apply sortDesc_sorted.
  - rewrite sortDesc_stable. clear Hperm.
    induction (languages result) as [|[name stats] entries IH];
      [reflexivity|].
    cbn [map List.filter languageDatum ld_code snd].
    destruct (ls_code stats =? k)%nat; cbn [map ld_name fst]; now rewrite IH.
Qed.

Lemma languageData_rows_facts
  (percentage : nat -> nat -> string) (result : AnalysisResult) :
  length (languageData percentage result) = length (languages result)
  /\ StronglySorted (byDecreasing ld_code) (languageData percentage result).
Proof.
  unfold languageData. split; [|apply sortDesc_sorted].
  now rewrite (Permutation_length (sortDesc_Permutation _ _)), length_map.
Qed.

(** X15. The pie chart shows the first eight rows of the language table, or
    all of them when there are fewer, each with its code count; no language
    left out has more code lines than a language shown. *)
Theorem pieData_top_eight
  (percentage : nat -> nat -> string) (result : AnalysisResult) :
  let rows := languageData percentage result in
  let slices := pieData percentage result in
  length slices = min 8 (length (languages result))
  /\ map ps_name slices = map ld_name (take 8 rows)
  /\ map ps_value slices = map ld_code (take 8 rows)
  /\ (forall slice row,
        In slice slices -> In row (drop 8 rows) ->
        ld_code row <= ps_value slice).
Proof.
  cbv zeta. unfold pieData.
  destruct (languageData_rows_facts percentage result) as [Hlen Hsorted].
  assert (map ps_value
            (imap (fun index lang =>
                     mkSlice (ld_name lang) (ld_code lang)
                       ("hsl(" ++ decimal (200 + index * 25)%nat ++ ", 70%, "
                        ++ decimal (50 + index * 5)%nat ++ "%)"))
               (take 8 (languageData percentage result)))
          = map ld_code (take 8 (languageData percentage result))) as Hval.
  { change (@map PieSlice nat) with (@fmap list _ PieSlice nat).
    rewrite fmap_imap. rewrite <- (imap_const ld_code).
    now apply imap_ext. }
  split; [|split; [|split]].
  - now rewrite length_imap, length_take, Hlen.
  - change (@map PieSlice string) with (@fmap list _ PieSlice string).
    rewrite fmap_imap. rewrite <- (imap_const ld_name).
    now apply imap_ext.
  - exact Hval.
  - intros slice row Hslice Hrow.
    apply (List.in_map ps_value) in Hslice. rewrite Hval in Hslice.
    apply List.in_map_iff in Hslice as (top & <- & Htop).
    exact (sorted_take_drop ld_code 8 _ top row Hsorted Htop Hrow).
Qed.

Lemma pieData_top_eight_witness :
  ld_code (mkDatum "1" 1 0 0 1 EmptyString)
  <= ps_value (mkSlice "9" 9 "hsl(200, 70%, 50%)").
Proof.
  apply (proj2 (proj2 (proj2
           (pieData_top_eight (fun _ _ => EmptyString) nineLanguages)))).
  - vm_compute. tauto.
  - vm_compute. tauto.
Defined.

Lemma useCodeAnalyzer_total_statsOf (inputs : list File.t) :
  total (useCodeAnalyzer inputs) = statsOf (files (useCodeAnalyzer inputs)).
Proof.
  rewrite useCodeAnalyzer_aggregate. cbn [total files].
  rewrite grandTotal_aggregate. unfold statsOf.
  rewrite (contributions_of_inputs ls_files (fun _ => 1)) by reflexivity.
  rewrite (contributions_of_inputs ls_blank blank) by reflexivity.
  rewrite (contributions_of_inputs ls_comment comment) by reflexivity.
  rewrite (contributions_of_inputs ls_code code) by reflexivity.
  rewrite (contributions_of_inputs ls_total lines) by reflexivity.
  now rewrite sum_list_with_one.
Qed.

Lemma statsOf_Permutation (l l' : list FileStats) :
  Permutation l l' -> statsOf l = statsOf l'.
Proof.
  intros H. unfold statsOf.
  rewrite (Permutation_length H).
  f_equal; now apply sum_list_with_Permutation_proper.
Qed.

(** X16. Rendering the file table sorts the per-file entries of the report
    in place. Afterwards the entries are the same ones in decreasing order
    of code lines, no longer in input order; the grand total is still the
    sum over them; and rendering once more changes nothing. *)
Theorem renderFileRows_keeps_report (inputs : list File.t) :
  let r := renderFileRows (useCodeAnalyzer inputs) in
  Permutation (files r) (files (useCodeAnalyzer inputs))
  /\ StronglySorted (byDecreasing code) (files r)
  /\ languages r = languages (useCodeAnalyzer inputs)
  /\ total r = statsOf (files r)
  /\ renderFileRows r = r.
Proof.
  cbv zeta. unfold renderFileRows. cbn [files total languages].
  pose proof (sortDesc_Permutation code (files (useCodeAnalyzer inputs)))
    as Hperm.
  pose proof (sortDesc_sorted code (files (useCodeAnalyzer inputs)))
    as Hsorted.
  split; [exact Hperm|split; [exact Hsorted|split; [reflexivity|split]]].
  - rewrite (statsOf_Permutation _ _ Hperm).
    apply useCodeAnalyzer_total_statsOf.
  - now rewrite (sortDesc_fixed code _ Hsorted).
Qed.

Lemma filterIndexed_all {A} (target start : nat) (arr : list A) :
  target < start ->
  filterIndexed (fun _ i => negb (i =? target)%nat) start arr = arr.
Proof.
  revert start. induction arr as [|x arr IH]; intros start H; simpl.
  - reflexivity.
  - destruct (start =? target)%nat eqn:E.
    + apply Nat.eqb_eq in E. lia.
    + simpl. rewrite IH by lia. reflexivity.
Qed.

Lemma filterIndexed_remove {A} (index start : nat) (arr : list A) :
  filterIndexed (fun _ i => negb (i =? start + index)%nat) start arr
  = (take index arr ++ drop (S index) arr)%list.
Proof.
  revert index start. induction arr as [|x arr IH]; intros index start.
  - now destruct index.
  - cbn [filterIndexed]. destruct index as [|index].
    + rewrite Nat.add_0_r, Nat.eqb_refl. cbn [negb].
      rewrite filterIndexed_all by lia. reflexivity.
    + replace (start =? start + S index)%nat with false
        by (symmetry; apply Nat.eqb_neq; lia).
      cbn [negb]. replace (start + S index) with (S start + index) by lia.
      rewrite IH. reflexivity.
Qed.

(** X17. Removing the file at an index of the selection keeps the files
    before and after it in order: one file less when the index is within the
    selection, the selection as it is when the index is out of range. *)
Theorem removeFile_take_drop {A} (index beyond : nat)
  (selectedFiles : list A) :
  removeFile index selectedFiles
  = (take index selectedFiles ++ drop (S index) selectedFiles)%list
  /\ length (removeFile index selectedFiles)
     = length selectedFiles
       - (if (index <? length selectedFiles)%nat then 1 else 0)
  /\ removeFile (length selectedFiles + beyond) selectedFiles = selectedFiles.
Proof.
  assert (forall i, removeFile i selectedFiles
          = (take i selectedFiles ++ drop (S i) selectedFiles)%list)
    as Heq by (intros i; unfold removeFile; apply (filterIndexed_remove i 0)).
  split; [apply Heq|]. rewrite !Heq. split.
  - rewrite length_app, length_take, length_drop.
    destruct (index <? length selectedFiles)%nat eqn:E.
    + apply Nat.ltb_lt in E. lia.
    + apply Nat.ltb_ge in E. lia.
  - rewrite take_ge, drop_ge by lia. apply app_nil_r.
Qed.

(** X18. The name of an archive entry is the text after the last slash of
    its path; a path without a slash is its own name; and a path that ends
    with a slash keeps the whole path as its name. *)
Theorem entryName_is_base_name (dir base : string) :
  occurrences "/" base = 0 ->
  base <> EmptyString ->
  entryName (dir ++ "/" ++ base) = base
  /\ entryName base = base
  /\ entryName (dir ++ "/") = dir ++ "/"
  /\ entryName EmptyString = EmptyString.
Proof.
  intros Hbase Hne.
  assert (String.eqb base EmptyString = false) as Hb
    by now apply String.eqb_neq.
  unfold entryName, pop. split; [|split; [|split; [|reflexivity]]].
  - change (dir ++ "/" ++ base) with (dir ++ String "/" base).
    rewrite last_split_after_separator, split_without_separator by assumption.
    simpl. now rewrite Hb.
  - rewrite split_without_separator by assumption. simpl. now rewrite Hb.
  - change (dir ++ "/") with (dir ++ String "/" EmptyString).
    now rewrite last_split_after_separator.
Qed.

Lemma entryName_is_base_name_witness :
  entryName ("src/app" ++ "/" ++ "main.ts") = "main.ts".
Proof.
  apply (entryName_is_base_name "src/app" "main.ts");
    [reflexivity|discriminate].
Defined.

Lemma processFiles_app (files1 files2 : list Upload) :
  processFiles (files1 ++ files2)%list =
  match processFiles files1, processFiles files2 with
  | Some processed1, Some processed2 => Some (processed1 ++ processed2)%list
  | _, _ => None
  end.
Proof.
  induction files1 as [|file files1 IH].
  - simpl. now destruct (processFiles files2).
  - change ((file :: files1) ++ files2)%list
      with (file :: (files1 ++ files2))%list.
    cbn [processFiles]. rewrite IH.
    destruct (processFile file) as [pushed|]; [|reflexivity].
    destruct (processFiles files1) as [p1|]; [|reflexivity].
    destruct (processFiles files2) as [p2|]; [|reflexivity].
    now rewrite app_assoc.
Qed.

(** X19. Failures are handled differently for archives and for plain
    files. An archive that cannot be opened is passed over: the selection is
    the one obtained without it. A plain file whose text cannot be read
    makes the whole call fail, whatever the other files are, so no selection
    is set. *)
Theorem processFiles_failures
  (before after : list Upload) (archive plain : Upload) :
  isArchive archive = true ->
  up_zip archive = None -> up_tar archive = None ->
  isArchive plain = false ->
  up_text plain = None ->
  processFiles (before ++ archive :: after)%list
  = processFiles (before ++ after)%list
  /\ processFiles (before ++ plain :: after)%list = None.
Proof.
  intros Harch Hzip Htar Hplain Htext.
  assert (processFile archive = Some []) as Ha.
  { unfold processFile, isArchive in *. rewrite Hzip, Htar.
    destruct (endsWith (up_name archive) ".zip"); [reflexivity|].
    simpl in Harch. now rewrite Harch. }
  assert (processFile plain = None) as Hp.
  { unfold processFile, isArchive in *.
    apply orb_false_iff in Hplain as [-> ->]. now rewrite Htext. }
  rewrite !processFiles_app. cbn [processFiles]. rewrite Ha, Hp.
  split.
  - destruct (processFiles before), (processFiles after); reflexivity.
  - now destruct (processFiles before).
Qed.

Lemma processFiles_failures_witness :
  processFiles
    [ mkUpload "a.c" (Some "x") None None;
      mkUpload "lib.zip" (Some "PK") None None ]
  = processFiles [ mkUpload "a.c" (Some "x") None None ].
Proof.
  apply (processFiles_failures [mkUpload "a.c" (Some "x") None None] []
           (mkUpload "lib.zip" (Some "PK") None None)
           (mkUpload "b.c" None None None));
    reflexivity.
Defined.

(** X20. Plain files pass through: when no file of the drop is named like
    an archive and every text can be read, the selection has one entry per
    file, in the same order, whose name and path are the file name and whose
    content is the text of the file. *)
Theorem plain_files_pass_through (files : list Upload) :
  List.Forall (fun f => isArchive f = false /\ up_text f <> None) files ->
  exists processed,
    processFiles files = Some processed
    /\ map pf_originalFile processed = files
    /\ map pf_name processed = map up_name files
    /\ map pf_path processed = map up_name files
    /\ map (fun pf => Some (pf_content pf)) processed = map up_text files.
Proof.
  induction 1
    as [|file files [Harch Htext] _ (processed & Hp & H1 & H2 & H3 & H4)].
  - now exists [].
  - cbn [processFiles]. rewrite Hp. unfold processFile, isArchive in *.
    apply orb_false_iff in Harch as [-> ->].
    destruct (up_text file) as [content|] eqn:E; [|contradiction].
    eexists. split; [reflexivity|]. cbn [app map pf_originalFile pf_name
      pf_path pf_content].
    now rewrite H1, H2, H3, H4, E.
Qed.

Lemma plain_files_pass_through_witness :
  exists processed,
    processFiles [ mkUpload "a.c" (Some "x") None None ] = Some processed
    /\ map pf_name processed = ["a.c"].
Proof.
  destruct (plain_files_pass_through [mkUpload "a.c" (Some "x") None None])
    as (processed & H & _ & Hn & _).
  - repeat constructor. discriminate.
  - now exists processed.
Defined.

(** X21. The files taken from a zip archive, its entries being read in the
    order in which [Object.entries] lists them: directories are passed over,
    and the entries that are not directories are taken one by one until the
    first whose text cannot be read. The entries before that one are kept,
    with their path, their text and the last segment of their path as name;
    that entry and all the later ones are left out. When every text can be
    read, all the entries that are not directories are taken. *)
Theorem zipFiles_entries
  (file : Upload) (entries kept left : list ZipEntry) :
  List.filter (fun e => negb (ze_dir e)) entries = (kept ++ left)%list ->
  List.Forall (fun e => ze_text e <> None) kept ->
  match left with
  | [] => True
  | failed :: _ => ze_text failed = None
  end ->
  let taken := zipFiles file entries in
  map pf_path taken = map ze_path kept
  /\ map (fun pf => Some (pf_content pf)) taken = map ze_text kept
  /\ map pf_name taken = map entryName (map ze_path kept)
  /\ map pf_originalFile taken = map (fun _ => file) kept.
Proof.
  cbv zeta. revert kept.
  induction entries as [|entry entries IH]; intros kept Hsplit Hkept Hleft.
  - simpl in Hsplit. destruct kept; [|discriminate].
    simpl. auto.
  - cbn [zipFiles List.filter] in *. destruct (ze_dir entry); cbn [negb] in *.
    + now apply IH.
    + destruct kept as [|k kept].
      * simpl in Hsplit. subst left. rewrite Hleft. simpl. auto.
      * injection Hsplit as -> Hsplit.
        inversion Hkept as [|? ? Hk Hkept']; subst.
        destruct (ze_text k) as [content|] eqn:E; [|contradiction].
        destruct (IH kept Hsplit Hkept' Hleft) as (H1 & H2 & H3 & H4).
        cbn [map pf_path pf_content pf_name pf_originalFile].
        now rewrite H1, H2, H3, H4, E.
Qed.

Lemma zipFiles_entries_witness :
  let file := mkUpload "lib.zip" None None None in
  map pf_path
    (zipFiles file [ mkZipEntry "src/" true None;
                     mkZipEntry "src/a.c" false (Some "x");
                     mkZipEntry "src/b.c" false None;
                     mkZipEntry "src/c.c" false (Some "y") ])
  = ["src/a.c"].
Proof.
  cbv zeta.
  destruct (zipFiles_entries (mkUpload "lib.zip" None None None)
              [ mkZipEntry "src/" true None;
                mkZipEntry "src/a.c" false (Some "x");
                mkZipEntry "src/b.c" false None;
                mkZipEntry "src/c.c" false (Some "y") ]
              [ mkZipEntry "src/a.c" false (Some "x") ]
              [ mkZipEntry "src/b.c" false None;
                mkZipEntry "src/c.c" false (Some "y") ])
    as (H & _).
  - reflexivity.
  - repeat constructor. discriminate.
  - reflexivity.
  - exact H.
Defined.
